(** * vscode-gist: the command layer ([src/commands.ts])

    A shallow embedding of the [Commands] class: the identity codec
    ([_createTmpDir], [_getCodeFileDetails]), the file-name collision loop of
    [addToCodeBlock], and the command handlers as programs over the calls they
    make to the storage provider and to the editor host.

    Strings are [string]s of 8-bit characters; among the line terminators
    that the regular expression's [.] refuses, LF and CR are in that range. *)

From Stdlib Require Import List Arith Lia Bool Ascii String FinFun.
From Stdlib Require Import Numbers.DecimalString Numbers.DecimalNat.
Import ListNotations.

Local Open Scope string_scope.
Local Open Scope list_scope.

(* ================================================================= *)
(** ** Strings *)

Module Str.

(** [s.substr(n)] / [s.slice(n)]: the string without its first [n]
    characters. *)
Fixpoint drop (n : nat) (s : string) : string :=
  match n, s with
  | 0, _ => s
  | S _, EmptyString => EmptyString
  | S n', String _ s' => drop n' s'
  end.

(** [s.substring(0, n)]: the first [n] characters. *)
Fixpoint take (n : nat) (s : string) : string :=
  match n, s with
  | 0, _ => EmptyString
  | S _, EmptyString => EmptyString
  | S n', String c s' => String c (take n' s')
  end.

(** Length of the longest prefix whose characters all satisfy [p]. *)
Fixpoint span (p : ascii -> bool) (s : string) : nat :=
  match s with
  | String c s' => if p c then S (span p s') else 0
  | EmptyString => 0
  end.

Fixpoint forallb (p : ascii -> bool) (s : string) : bool :=
  match s with
  | String c s' => p c && forallb p s'
  | EmptyString => true
  end.

(** [needle] occurs somewhere in [s]. *)
Fixpoint occurs (needle s : string) : bool :=
  prefix needle s ||
  match s with
  | String _ s' => occurs needle s'
  | EmptyString => false
  end.

(** [s.lastIndexOf(c)], with [None] for JavaScript's [-1]. *)
Fixpoint lastIndexOf (c : ascii) (s : string) : option nat :=
  match s with
  | EmptyString => None
  | String a s' =>
      match lastIndexOf c s' with
      | Some k => Some (S k)
      | None => if Ascii.eqb a c then Some 0 else None
      end
  end.

(** The decimal numeral that [+] produces when a loop counter is
    concatenated to a string. *)
Definition of_nat (n : nat) : string :=
  NilZero.string_of_uint (Nat.to_uint n).

Definition is_empty (s : string) : bool :=
  match s with EmptyString => true | String _ _ => false end.

(** [a || b] on strings: the empty string is falsy. *)
Definition or_else (a b : string) : string :=
  if is_empty a then b else a.

(** White space in the 8-bit range: TAB, LF, VT, FF, CR, SP and NBSP. *)
Definition white (c : ascii) : bool :=
  let n := nat_of_ascii c in
  ((9 <=? n) && (n <=? 13) || (n =? 32) || (n =? 160))%nat%bool.

Fixpoint trim_start (s : string) : string :=
  match s with
  | String c s' => if white c then trim_start s' else s
  | EmptyString => EmptyString
  end.

Fixpoint trim_end (s : string) : string :=
  match s with
  | String c s' =>
      let t := trim_end s' in
      if white c && is_empty t then EmptyString else String c t
  | EmptyString => EmptyString
  end.

(** [s.trim()]. *)
Definition trim (s : string) : string := trim_end (trim_start s).

(** [s.substr(0, 1).toLowerCase() === 'y']. *)
Definition starts_with_y (s : string) : bool :=
  match s with
  | String c _ => Ascii.eqb c "y" || Ascii.eqb c "Y"
  | EmptyString => false
  end.

End Str.

(* ================================================================= *)
(** ** Regular expressions, as far as [_getCodeFileDetails] uses them *)

Module Regex.

(** A character class. *)
Inductive cls : Type :=
| Dot                (* the dot: anything but a line terminator *)
| Except (c : ascii) (* a negated class of one character *).

Definition line_terminator (c : ascii) : bool :=
  Ascii.eqb c "010" || Ascii.eqb c "013".

Definition accepts (k : cls) (c : ascii) : bool :=
  match k with
  | Dot => negb (line_terminator c)
  | Except x => negb (Ascii.eqb c x)
  end.

(** The pieces a pattern is the concatenation of. *)
Inductive atom : Type :=
| Lit (s : string)   (* literal text *)
| Star (k : cls)     (* a class under a greedy star *)
| Group (k : cls)    (* the same, in a capturing group *).

Definition pattern := list atom.

(** [first_down f n] is the first success among [f n, f (n-1), ..., f 0]:
    a greedy quantifier gives characters back one at a time. *)
Fixpoint first_down {A} (f : nat -> option A) (n : nat) : option A :=
  match f n with
  | Some r => Some r
  | None => match n with 0 => None | S n' => first_down f n' end
  end.

(** Backtracking match of [p] at the start of [s]; the result lists the
    captures, in the order of their groups. *)
Fixpoint match_here (p : pattern) (s : string) : option (list string) :=
  match p with
  | [] => Some []
  | Lit l :: p' =>
      if prefix l s then match_here p' (Str.drop (length l) s) else None
  | Star k :: p' =>
      first_down (fun n => match_here p' (Str.drop n s))
                 (Str.span (accepts k) s)
  | Group k :: p' =>
      first_down (fun n => option_map (cons (Str.take n s))
                                      (match_here p' (Str.drop n s)))
                 (Str.span (accepts k) s)
  end.

(** [s.match(re)] for a pattern without the [g] flag: the match at the
    leftmost position that has one. *)
Fixpoint exec (p : pattern) (s : string) : option (list string) :=
  match match_here p s with
  | Some r => Some r
  | None =>
      match s with
      | EmptyString => None
      | String _ s' => exec p s'
      end
  end.

(** The number of capturing groups of a pattern. *)
Fixpoint groups (p : pattern) : nat :=
match p with
| [] => 0
| Group _ :: p' => S (groups p')
| _ :: p' => groups p'
end.

End Regex.

(* ================================================================= *)
(** ** The identity codec *)

(** [path.sep] is ["/"] on POSIX hosts and a backslash on Windows. *)
Inductive platform : Type := posix | win32.

Definition path_sep (pf : platform) : ascii :=
  match pf with
  | posix => "/"
  | win32 => "\"
  end%char.

Record CodeFileDetails : Type := {
  storageBlockId : string;
  fileName : string
}.

(** The default [options.prefix] of [_createTmpDir]. *)
Definition tag : string := "vscode_gist_".

(** [options.prefix + key + '_'], the prefix handed to [tmp.dirSync]. *)
Definition tmp_prefix (key : string) : string := tag ++ key ++ "_".

(** The [RegExp] that [_getCodeFileDetails] builds, atom by atom: any run of
    characters of one line; the text [vscode_gist_]; group 1, a run without
    underscore; an underscore; a run without separator; the separator; group
    2, any run of characters of one line.  On Windows the source escapes the
    backslash, which then again stands for that one character. *)
Definition regexp (pf : platform) : Regex.pattern :=
  [ Regex.Star Regex.Dot;
    Regex.Lit "vscode_gist_";
    Regex.Group (Regex.Except "_");
    Regex.Lit "_";
    Regex.Star (Regex.Except (path_sep pf));
    Regex.Lit (String (path_sep pf) "");
    Regex.Group Regex.Dot ].

(** [_getCodeFileDetails], on the document's [fileName].  [None] is the
    [undefined] that falls out of the function when there is no match.
    (The third field of the source's result, [path], is read by no caller
    and is left out.) *)
Definition _getCodeFileDetails (pf : platform) (docFileName : string)
  : option CodeFileDetails :=
  match Regex.exec (regexp pf) docFileName with
  | Some [m1; m2] => Some {| storageBlockId := m1; fileName := m2 |}
  | _ => None
  end.


(* ================================================================= *)
(** ** Data model *)

(** Modelled from the spec: the [StorageBlock] type of
    [./services/storage.service], of which this file reads [id], [url],
    [html_url], [description] and [files].  [files] is a plain object used as
    a map from file name to file; it is kept as the list of its own
    entries in [for ... in] order.  Any file name can be a key, the names
    of the methods every object inherits included. *)
Record FileContent : Type := { content : string }.

Record StorageBlock : Type := {
  id : string;
  url : string;
  html_url : string;
  description : string;
  files : list (string * FileContent)
}.

(** Whether [name] is a key of the object's own. *)
Definition owns (fs : list (string * FileContent)) (name : string) : bool :=
  existsb (fun kv => String.eqb (fst kv) name) fs.

(** What the file reads of the editor API: a document's path and text, an
    editor's document and selection.  Positions are character offsets. *)
Module vscode.

Record TextDocument : Type := {
  fileName : string;
  text : string
}.

Record Selection : Type := {
  start : nat;
  stop : nat
}.

Definition isEmpty (s : Selection) : bool := (start s =? stop s)%nat.

(** [doc.getText(range)]: the whole text when [range] is [undefined]. *)
Definition getText (doc : TextDocument) (range : option Selection)
  : string :=
  match range with
  | None => text doc
  | Some r => substring (start r) (stop r - start r) (text doc)
  end.

Record TextEditor : Type := {
  document : TextDocument;
  selection : Selection
}.

End vscode.

(** A thrown value, as far as [_showError] tells values apart. *)
Inductive thrown : Type :=
| ThrownString (s : string)       (* a bare string *)
| ThrownError (message : string)  (* an [Error], a [TypeError] included *)
| ThrownOther                     (* anything else *).

(** The [TypeError] of a property access on [undefined]. *)
Definition type_error : thrown :=
  ThrownError "Cannot read properties of undefined".

(* ================================================================= *)
(** ** Calls to the outside, and programs over them *)

(** Every call the handlers make to the editor host, to Node and to the
    storage provider ([this._provider]), indexed by what the call returns. *)
Inductive event : Type -> Type :=
(* window, workspace, commands *)
| ActiveTextEditor : event (option vscode.TextEditor)
| VisibleTextEditors : event (list vscode.TextEditor)
| ExecuteCommand (command : string) : event unit
| ShowQuickPick (items : list StorageBlock) : event (option StorageBlock)
| ShowInputBox (prompt : string) (value : option string)
    : event (option string)
| ShowInformationMessage (message : string) : event unit
| ShowErrorMessage (message : string) : event unit
| OpenTextDocument (file : string) : event vscode.TextDocument
| ShowTextDocument (doc : vscode.TextDocument) : event unit
(* console, fs, tmp, open *)
| ConsoleError (e : thrown) : event unit
| WriteFileSync (file data : string) : event unit
| TmpDirSync (prefix : string) : event string
| OpenUrl (target : string) : event unit
(* the provider contract *)
| IsAuthenticated : event bool
| Login (username password : string) : event unit
| ListBlocks (favorite : bool) : event (list StorageBlock)
| GetStorageBlock (blockUrl : string) : event StorageBlock
| GetStorageBlockById (blockId : string) : event StorageBlock
| CreateFile (name : string) (descr : option string) (data : string)
             (isPrivate : bool) : event StorageBlock
| EditFile (blockId name data : string) : event unit
| RemoveFileFromStorageBlock (blockId name : string) : event unit
| DeleteStorageBlock (blockId : string) : event unit
| ChangeDescription (blockId descr : string) : event unit.

(** How a call ends: it returns (its promise resolves), or it throws (its
    promise rejects). *)
Inductive result (R : Type) : Type :=
| Returns (r : R)
| Fails (e : thrown).
Arguments Returns {R} r.
Arguments Fails {R} e.

(** The [TypeError] of calling what is not a function. *)
Definition not_a_function : thrown :=
  ThrownError "codeBlock.files.hasOwnProperty is not a function".

(** [files.hasOwnProperty(name)].  The method is looked up on [files]
    itself: a file named [hasOwnProperty] is found in its place, it is no
    function, and the call throws.  Without such a file the inherited method
    answers whether [name] is a key. *)
Definition hasOwnProperty (fs : list (string * FileContent)) (name : string)
  : result bool :=
  if owns fs "hasOwnProperty" then Fails not_a_function
  else Returns (owns fs name).

(** An [async] function body: it returns, throws, or makes a call and goes on
    with how the call ended. *)
Inductive prog (A : Type) : Type :=
| Ret (a : A)
| Throw (e : thrown)
| Call {R : Type} (ev : event R) (k : result R -> prog A).
Arguments Ret {A} a.
Arguments Throw {A} e.
Arguments Call {A R} ev k.

Fixpoint bind {A B} (p : prog A) (f : A -> prog B) : prog B :=
  match p with
  | Ret a => f a
  | Throw e => Throw e
  | Call ev k => Call ev (fun r => bind (k r) f)
  end.

Notation "x <- p ;; q" := (bind p (fun x => q))
  (at level 61, p at next level, right associativity).
Notation "p ;; q" := (bind p (fun _ => q))
  (at level 61, right associativity).

(** [await f(...)], or a synchronous call such as [open(url)]: a failure is
    thrown on the spot. *)
Definition call {R} (ev : event R) : prog R :=
  Call ev (fun r => match r with Returns v => Ret v | Fails e => Throw e end).

(** [f(...)] as a statement, its promise dropped: however the call ends, the
    caller goes on. *)
Definition fire {R} (ev : event R) : prog unit :=
  Call ev (fun _ => Ret tt).

(** [try { p } catch (error) { h error }]. *)
Fixpoint try_catch {A} (p : prog A) (h : thrown -> prog A) : prog A :=
  match p with
  | Ret a => Ret a
  | Throw e => h e
  | Call ev k => Call ev (fun r => try_catch (k r) h)
  end.

(** One call as it happened. *)
Inductive entry : Type :=
| Entry {R : Type} (ev : event R) (res : result R).

Definition trace := list entry.

(** The outside world: it decides how each call ends, knowing all that was
    called before. *)
Definition world := forall R : Type, trace -> event R -> result R.

(** Running a program against a world, from the calls made so far: the calls
    in the order made, and how the program ended. *)
Fixpoint exec {A} (w : world) (p : prog A) (tr : trace)
  : trace * result A :=
  match p with
  | Ret a => (tr, Returns a)
  | Throw e => (tr, Fails e)
  | Call ev k =>
      let r := w _ tr ev in
      exec w (k r) (tr ++ [Entry ev r])
  end.

(** A handler invoked by the host: no call has been made yet. *)
Definition run {A} (w : world) (p : prog A) : trace * result A :=
  exec w p [].

(** The calls a program adds to those made before. *)
Fixpoint news {A} (w : world) (p : prog A) (tr : trace) : trace :=
  match p with
  | Call ev k =>
      let r := w _ tr ev in
      Entry ev r :: news w (k r) (tr ++ [Entry ev r])
  | _ => []
  end.

(** A program that makes no call of the kind [bad], however its calls end. *)
Fixpoint never {A} (bad : entry -> bool) (p : prog A) : Prop :=
  match p with
  | Call ev k => forall r, bad (Entry ev r) = false /\ never bad (k r)
  | _ => True
  end.

(* ================================================================= *)
(** ** The [Commands] class *)

(** What a method reads of [this] and of Node's [path] module: the platform
    (it fixes [path.sep]), [path.join] and [path.basename], which are taken
    as given, and [this._provider.name]. *)
Record Commands : Type := {
  os : platform;
  path_join : string -> string -> string;
  path_basename : string -> string;
  provider_name : string
}.

(** Two path segments put together with one separator in between: what
    [path.join] returns when there is nothing to normalise. *)
Definition plain_join (pf : platform) (dir name : string) : string :=
  dir ++ String (path_sep pf) name.

Section Methods.

Variable this : Commands.

Definition _showError (error : thrown) : prog unit :=
  let msg :=
    match error with
    | ThrownString s => s
    | ThrownError m =>
        if Str.is_empty m then "An unknown error occurred" else m
    | ThrownOther => "An unknown error occurred"
    end in
  fire (ConsoleError error) ;;
  fire (ShowErrorMessage
          ("GIST ERROR: " ++ msg ++ " [" ++ provider_name this ++ "]")).

Definition _prompt (message : string) (value : option string)
  : prog (option string) :=
  call (ShowInputBox message value).

(** The message [_notify] shows; the callers await it or not. *)
Definition _notify (message : string) : event unit :=
  ShowInformationMessage
    ("GIST MESSAGE: " ++ message ++ " [" ++ provider_name this ++ "]").

Definition _getFileNameFromPath (filePath : string) : string :=
  path_basename this filePath.

Definition _createTmpDir (key : string) : prog string :=
  call (TmpDirSync (tmp_prefix key)).

Definition _openTextDocument (dir filename data : string) : prog unit :=
  let file := path_join this dir filename in
  call (WriteFileSync file data) ;;
  doc <- call (OpenTextDocument file) ;;
  call (ShowTextDocument doc).

(** [.trim()] on what an input box gave: a [TypeError] when the box was
    dismissed. *)
Definition trimmed (answer : option string) : prog string :=
  match answer with
  | Some s => Ret (Str.trim s)
  | None => Throw type_error
  end.

Definition _loginUser : prog unit :=
  let providerName := provider_name this in
  authenticated <- call IsAuthenticated ;;
  if authenticated : bool then Ret tt
  else
    a <- call (ShowInputBox ("Enter your " ++ providerName ++ " username")
                            None) ;;
    username <- trimmed a ;;
    b <- call (ShowInputBox ("Enter your " ++ providerName ++ " password.")
                            None) ;;
    password <- trimmed b ;;
    call (Login username password).

Definition _selectCodeBlock (favorite : bool)
  : prog (option StorageBlock) :=
  _loginUser ;;
  blocks <- call (ListBlocks favorite) ;;
  selectedFile <- call (ShowQuickPick blocks) ;;
  match selectedFile with
  | Some sel => b <- call (GetStorageBlock (url sel)) ;; Ret (Some b)
  | None => Ret None
  end.

Definition _getCurrentDocument : prog CodeFileDetails :=
  editor <- call ActiveTextEditor ;;
  match editor with
  | None => Throw (ThrownError "No open documents")
  | Some e =>
      match _getCodeFileDetails (os this)
              (vscode.fileName (vscode.document e)) with
      | None =>
          Throw (ThrownError ("Not a code block in " ++ provider_name this))
      | Some details => Ret details
      end
  end.

(** The [for ... in] loop of [openCodeBlock]; [i] counts the files opened
    before. *)
Fixpoint open_each (directory : string) (i : nat)
         (fs : list (string * FileContent)) : prog unit :=
  match fs with
  | [] => Ret tt
  | (name, file) :: rest =>
      (if (1 <? S i)%nat
       then call (ExecuteCommand "workbench.action.focusFirstEditorGroup") ;;
            call (ExecuteCommand "workbench.action.splitEditor")
       else Ret tt) ;;
      _openTextDocument directory name (content file) ;;
      open_each directory (S i) rest
  end.

(** What [openCodeBlock] does once a block is selected. *)
Definition open_selected (codeBlock : StorageBlock) : prog unit :=
  directory <- _createTmpDir (id codeBlock) ;;
  editor <- call ActiveTextEditor ;;
  match editor with
  | Some _ => call (ExecuteCommand "workbench.action.closeOtherEditors")
  | None => Ret tt
  end ;;
  open_each directory 0 (files codeBlock).

Definition openCodeBlock (favorite : bool) : prog unit :=
  try_catch
    (codeBlock <- _selectCodeBlock favorite ;;
     match codeBlock with
     | None => Ret tt
     | Some b => open_selected b
     end)
    _showError.

(** [editor.document.getText(selection.isEmpty ? undefined : selection)] *)
Definition editor_text (editor : vscode.TextEditor) : string :=
  let selection := vscode.selection editor in
  vscode.getText (vscode.document editor)
    (if vscode.isEmpty selection then None else Some selection).

(** [this._getFileNameFromPath(editor.document.fileName) || 'untitled.txt'] *)
Definition editor_fileName (editor : vscode.TextEditor) : string :=
  Str.or_else
    (_getFileNameFromPath (vscode.fileName (vscode.document editor)))
    "untitled.txt".

Definition createCodeBlock : prog unit :=
  try_catch
    (editor <- call ActiveTextEditor ;;
     match editor with
     | None => Throw (ThrownError "Open a file before creating")
     | Some editor =>
         let text := editor_text editor in
         let fileName := editor_fileName editor in
         description <- _prompt "Enter description" None ;;
         answer <- _prompt "Private? Y = Yes, N = No" None ;;
         match answer with
         | None => Throw type_error
         | Some a =>
             let isPrivate := Str.starts_with_y a in
             storageBlock <-
               call (CreateFile fileName description text isPrivate) ;;
             call (OpenUrl (html_url storageBlock))
         end
     end)
    _showError.

Definition openCodeBlockInBrowser : prog unit :=
  try_catch
    (details <- _getCurrentDocument ;;
     storageBlock <- call (GetStorageBlockById (storageBlockId details)) ;;
     call (OpenUrl (html_url storageBlock)))
    _showError.

(** The [for ... of] loop of [deleteCodeBlock]. *)
Fixpoint close_each (blockId : string) (editors : list vscode.TextEditor)
  : prog unit :=
  match editors with
  | [] => Ret tt
  | e :: rest =>
      match _getCodeFileDetails (os this)
              (vscode.fileName (vscode.document e)) with
      | Some d =>
          if String.eqb (storageBlockId d) blockId
          then fire (ExecuteCommand "workbench.action.closeActiveEditor")
          else Ret tt
      | None => Ret tt
      end ;;
      close_each blockId rest
  end.

Definition deleteCodeBlock : prog unit :=
  try_catch
    (details <- _getCurrentDocument ;;
     call (DeleteStorageBlock (storageBlockId details)) ;;
     editors <- call VisibleTextEditors ;;
     close_each (storageBlockId details) editors ;;
     fire (_notify "Block Deleted"))
    _showError.

Definition removeFileFromCodeBlock : prog unit :=
  try_catch
    (details <- _getCurrentDocument ;;
     call (RemoveFileFromStorageBlock (storageBlockId details)
                                      (fileName details)) ;;
     fire (ExecuteCommand "workbench.action.closeActiveEditor") ;;
     fire (_notify "File Removed From Block"))
    _showError.

(** The name the loop of [addToCodeBlock] tries in its [i]-th round:
    [originalFileName.substring(0, extPos) + i + ext]. *)
Definition numbered (originalFileName : string) (i : nat) : string :=
  let extPos :=
    match Str.lastIndexOf "." originalFileName with
    | Some p => p
    | None => length originalFileName
    end in
  let ext := Str.drop extPos originalFileName in
  Str.take extPos originalFileName ++ Str.of_nat i ++ ext.

(** The [while] loop of [addToCodeBlock], from the state [(fileName, i)]:
    the name it leaves with, or what its test throws.  [fuel] bounds the
    rounds; when it runs out the name of the moment is returned. *)
Fixpoint rename_loop (fuel : nat) (fs : list (string * FileContent))
         (originalFileName fileName : string) (i : nat) : result string :=
  match hasOwnProperty fs fileName with
  | Returns true =>
      match fuel with
      | 0 => Returns fileName
      | S fuel' =>
          rename_loop fuel' fs originalFileName
                      (numbered originalFileName i) (S i)
      end
  | Returns false => Returns fileName
  | Fails e => Fails e
  end.

(** The loop started as the source starts it, [i = 1], with one round more
    than the block has files: that many always do. *)
Definition free_fileName (fs : list (string * FileContent))
           (fileName : string) : result string :=
  rename_loop (S (List.length fs)) fs fileName fileName 1.

Definition addToCodeBlock : prog unit :=
  try_catch
    (editor <- call ActiveTextEditor ;;
     match editor with
     | None => Throw (ThrownError "Open a file before adding")
     | Some editor =>
         let text := editor_text editor in
         let fileName := editor_fileName editor in
         codeBlock <- _selectCodeBlock false ;;
         match codeBlock with
         | None => Ret tt
         | Some b =>
             match free_fileName (files b) fileName with
             | Returns fileName =>
                 call (EditFile (id b) fileName text) ;;
                 fire (_notify "File Added To Block")
             | Fails e => Throw e
             end
         end
     end)
    _showError.

Definition changeCodeBlockDescription : prog unit :=
  try_catch
    (details <- _getCurrentDocument ;;
     codeBlock <- call (GetStorageBlockById (storageBlockId details)) ;;
     answer <- _prompt "Enter Description" (Some (description codeBlock)) ;;
     match answer with
     | None => Ret tt
     | Some d =>
         if Str.is_empty d then Ret tt
         else
           call (ChangeDescription (storageBlockId details) d) ;;
           fire (_notify "Block Description Saved")
     end)
    _showError.

(** The destructuring of [_getCodeFileDetails(doc)] stands before the
    [try]: on [undefined] it throws there. *)
Definition onSaveTextDocument (doc : vscode.TextDocument) : prog unit :=
  match _getCodeFileDetails (os this) (vscode.fileName doc) with
  | None => Throw type_error
  | Some details =>
      try_catch
        (if Str.is_empty (storageBlockId details) then Ret tt
         else
           call (EditFile (storageBlockId details) (fileName details)
                          (vscode.text doc)) ;;
           call (_notify "File Saved To Block"))
        _showError
  end.

End Methods.


(* ================================================================= *)
(** ** Reading strings and runs *)

(** [s] has no character [c]. *)
Definition lacks (c : ascii) (s : string) : bool :=
  Str.forallb (Regex.accepts (Regex.Except c)) s.

(** [s] has no line terminator. *)
Definition single_line (s : string) : bool :=
  Str.forallb (Regex.accepts Regex.Dot) s.

(** The part of [s] before its first line terminator. *)
Definition first_line (s : string) : string :=
  Str.take (Str.span (Regex.accepts Regex.Dot) s) s.

(** The call returned. *)
Definition returned (e : entry) : bool :=
  match e with
  | Entry _ (Returns _) => true
  | Entry _ (Fails _) => false
  end.

Definition all_returned (tr : trace) : bool := forallb returned tr.

(** The call went to the storage provider. *)
Definition provider_call (e : entry) : bool :=
  match e with
  | Entry ev _ =>
      match ev with
      | IsAuthenticated | Login _ _ | ListBlocks _ | GetStorageBlock _
      | GetStorageBlockById _ | CreateFile _ _ _ _ | EditFile _ _ _
      | RemoveFileFromStorageBlock _ _ | DeleteStorageBlock _
      | ChangeDescription _ _ => true
      | _ => false
      end
  end.

(** The provider was asked for its list of blocks. *)
Definition lists_blocks (e : entry) : bool :=
  match e with
  | Entry ev _ => match ev with ListBlocks _ => true | _ => false end
  end.

(** The call showed the provider authenticated: [isAuthenticated()]
    returned [true], or [login] returned. *)
Definition authenticates (e : entry) : bool :=
  match e with
  | Entry ev res =>
      match ev in event R return result R -> bool with
      | IsAuthenticated => fun res =>
          match res with Returns true => true | _ => false end
      | Login _ _ => fun res =>
          match res with Returns _ => true | Fails _ => false end
      | _ => fun _ => false
      end res
  end.

(** The login gate as a monitor over a run: [authed] says whether the
    provider has been seen authenticated; a [list] call while it has not
    been fails the monitor. *)
Fixpoint login_gate (authed : bool) (tr : trace) : bool :=
  match tr with
  | [] => true
  | e :: tr' =>
      (negb (lists_blocks e) || authed)
      && login_gate (authed || authenticates e) tr'
  end.

(** [login] was called and failed. *)
Definition login_failed (e : entry) : bool :=
  match e with
  | Entry ev res =>
      match ev in event R return result R -> bool with
      | Login _ _ => fun res =>
          match res with Returns _ => false | Fails _ => true end
      | _ => fun _ => false
      end res
  end.

(** What the login gate asks of a run: no [list] call before the provider
    was seen authenticated, and none at all when a [login] failed. *)
Definition gate_respected (tr : trace) : Prop :=
  login_gate false tr = true
  /\ (existsb login_failed tr = true -> existsb lists_blocks tr = false).

(** A call without how it ended, and the calls of a run. *)
Inductive called : Type :=
| Called {R : Type} (ev : event R).

Definition calls (tr : trace) : list called :=
  map (fun e => match e with Entry ev _ => Called ev end) tr.

(** The paths a run asked the host to open as documents, in order. *)
Definition opened (tr : trace) : list string :=
  flat_map (fun e =>
              match e with
              | Entry ev _ =>
                  match ev with
                  | OpenTextDocument file => [file]
                  | _ => []
                  end
              end) tr.

(** The files a run asked the provider to create: name, description, text
    and privacy of each [createFile] call. *)
Definition creations (tr : trace)
  : list (string * option string * string * bool) :=
  flat_map (fun e =>
              match e with
              | Entry ev _ =>
                  match ev with
                  | CreateFile n d t p => [(n, d, t, p)]
                  | _ => []
                  end
              end) tr.

(** The calls by which [openCodeBlock] is to bring the files of a block to
    the screen, each file with the document the host opened for it: the
    first file in the view at hand, every further one after a move to the
    first editor group and a split of it. *)
Fixpoint opening (this : Commands) (directory : string) (first : bool)
         (fs : list ((string * FileContent) * vscode.TextDocument)) : trace :=
  match fs with
  | [] => []
  | ((name, file), doc) :: rest =>
      (if first then []
       else [Entry (ExecuteCommand "workbench.action.focusFirstEditorGroup")
                   (Returns tt);
             Entry (ExecuteCommand "workbench.action.splitEditor")
                   (Returns tt)])
      ++ Entry (WriteFileSync (path_join this directory name) (content file))
               (Returns tt)
      :: Entry (OpenTextDocument (path_join this directory name))
               (Returns doc)
      :: Entry (ShowTextDocument doc) (Returns tt)
      :: opening this directory false rest
  end.

(** The visible editors whose document belongs to block [blockId]. *)
Definition bound_to (pf : platform) (blockId : string)
           (e : vscode.TextEditor) : bool :=
  match _getCodeFileDetails pf (vscode.fileName (vscode.document e)) with
  | Some d => String.eqb (storageBlockId d) blockId
  | None => false
  end.

(** The [closeActiveEditor] commands of a run. *)
Definition closes_active (e : entry) : bool :=
  match e with
  | Entry ev _ =>
      match ev with
      | ExecuteCommand c => String.eqb c "workbench.action.closeActiveEditor"
      | _ => false
      end
  end.

(** A host to try the sweep of [deleteCodeBlock] on: the visible editors
    stand in focus order, the active one first; [closeActiveEditor] closes
    the active editor, and the one focused before it becomes active. *)
Fixpoint host_after (focus : list vscode.TextEditor) (tr : trace)
  : list vscode.TextEditor :=
  match tr with
  | [] => focus
  | e :: tr' => host_after (if closes_active e then tl focus else focus) tr'
  end.

(* ================================================================= *)
(** ** A scripted world *)

(** Node's POSIX [path.basename]: trailing slashes dropped, then what
    follows the last slash. *)
Fixpoint strip_slashes (s : string) : string :=
  match s with
  | String c s' =>
      let t := strip_slashes s' in
      if Ascii.eqb c "/" && Str.is_empty t then EmptyString else String c t
  | EmptyString => EmptyString
  end.

Definition posix_basename (p : string) : string :=
  let t := strip_slashes p in
  match Str.lastIndexOf "/" t with
  | Some k => Str.drop (S k) t
  | None => t
  end.

(** The extension on a POSIX host, talking to a provider called Gist; file
    names are joined to a directory as they are. *)
Definition gist : Commands := {|
  os := posix;
  path_join := plain_join posix;
  path_basename := posix_basename;
  provider_name := "Gist"
|}.

(** A fixed state of the outside: the visible editors (the active one
    first), whether the provider is authenticated, the blocks it stores,
    what the user types at a prompt, and where temporary directories go. *)
Record script : Type := {
  on_screen : list vscode.TextEditor;
  authenticated : bool;
  stored : list StorageBlock;
  typed : string -> option string;
  tmp_root : string;
  tmp_random : string
}.

Definition lookup (key : StorageBlock -> string) (k : string)
           (bs : list StorageBlock) : result StorageBlock :=
  match find (fun b => String.eqb (key b) k) bs with
  | Some b => Returns b
  | None => Fails (ThrownError "Not Found")
  end.

(** The world that plays a script: every call returns, but for a block the
    provider does not store; the quick pick takes the first item. *)
Definition scripted (s : script) : world :=
  fun R _ ev =>
    match ev in event R return result R with
    | ActiveTextEditor => Returns (hd_error (on_screen s))
    | VisibleTextEditors => Returns (on_screen s)
    | ExecuteCommand _ => Returns tt
    | ShowQuickPick items => Returns (hd_error items)
    | ShowInputBox prompt _ => Returns (typed s prompt)
    | ShowInformationMessage _ => Returns tt
    | ShowErrorMessage _ => Returns tt
    | OpenTextDocument file =>
        Returns {| vscode.fileName := file; vscode.text := "" |}
    | ShowTextDocument _ => Returns tt
    | ConsoleError _ => Returns tt
    | WriteFileSync _ _ => Returns tt
    | TmpDirSync prefix =>
    Returns (tmp_root s ++ prefix ++ tmp_random s)%string
    | OpenUrl _ => Returns tt
    | IsAuthenticated => Returns (authenticated s)
    | Login _ _ => Returns tt
    | ListBlocks _ => Returns (stored s)
    | GetStorageBlock u => lookup url u (stored s)
    | GetStorageBlockById i => lookup id i (stored s)
    | CreateFile name descr data _ =>
        Returns {| id := "new"; url := "https://api/new";
                   html_url := "https://gist/new";
                   description := match descr with Some d => d | None => "" end;
                   files := [(name, {| content := data |})] |}
    | EditFile _ _ _ => Returns tt
    | RemoveFileFromStorageBlock _ _ => Returns tt
    | DeleteStorageBlock _ => Returns tt
    | ChangeDescription _ _ => Returns tt
    end.

Definition editor_on (file data : string) : vscode.TextEditor := {|
  vscode.document := {| vscode.fileName := file; vscode.text := data |};
  vscode.selection := {| vscode.start := 0; vscode.stop := 0 |}
|}.

Definition nobody (prompt : string) : option string := None.

(** A block of two files, as the provider returns it. *)
Definition site : StorageBlock := {|
  id := "abc123";
  url := "https://api/abc123";
  html_url := "https://gist/abc123";
  description := "a site";
  files := [("index.js", {| content := "let x;" |});
            ("style.css", {| content := "p {}" |})]
|}.


(** Nothing on screen, nobody at the keyboard, the provider authenticated
    and holding [site]. *)
Definition idle : script := {|
  on_screen := [];
  authenticated := true;
  stored := [site];
  typed := nobody;
  tmp_root := "/tmp/";
  tmp_random := "4711xYz"
|}.

Definition notes : vscode.TextDocument :=
  {| vscode.fileName := "/home/u/notes.txt"; vscode.text := "hello" |}.

(** Somebody at the keyboard who answers every prompt with [yes]. *)
Definition yes (prompt : string) : option string := Some "yes".

(** An editor on a scratch file, nothing selected, and one with the first
    five characters selected. *)
Definition scratch : vscode.TextEditor :=
  editor_on "/home/u/notes.txt" "hello world".

Definition scratch_selected : vscode.TextEditor := {|
  vscode.document := vscode.document scratch;
  vscode.selection := {| vscode.start := 0; vscode.stop := 5 |}
|}.

(** The user at [scratch_selected], answering prompts. *)
Definition writing : script := {|
  on_screen := [scratch_selected];
  authenticated := false;
  stored := [site];
  typed := yes;
  tmp_root := "/tmp/";
  tmp_random := "4711xYz"
|}.

(** Three editors side by side: two files of block [abc123] and, focused
    between them, a file of block [xyz789]. *)
Definition editor_a : vscode.TextEditor :=
  editor_on "/tmp/vscode_gist_abc123_4711xYz/index.js" "let x;".

Definition editor_b : vscode.TextEditor :=
  editor_on "/tmp/vscode_gist_abc123_4711xYz/style.css" "p {}".

Definition editor_c : vscode.TextEditor :=
  editor_on "/tmp/vscode_gist_xyz789_0815aBc/main.c" "int x;".

Definition side_by_side : script := {|
  on_screen := [editor_a; editor_c; editor_b];
  authenticated := true;
  stored := [site];
  typed := yes;
  tmp_root := "/tmp/";
  tmp_random := "4711xYz"
|}.

(** A block whose id has an underscore, and a provider holding it. *)
Definition underscored : StorageBlock := {|
  id := "a_b";
  url := "https://api/a_b";
  html_url := "https://gist/a_b";
  description := "";
  files := [("f.txt", {| content := "x" |})]
|}.

(** A block with a file whose name runs over two lines. *)
Definition two_lined : StorageBlock := {|
  id := "abc";
  url := "https://api/abc";
  html_url := "https://gist/abc";
  description := "";
  files := [(String "a" (String "010" "b"), {| content := "x" |})]
|}.

Definition holding (b : StorageBlock) : script := {|
  on_screen := [];
  authenticated := true;
  stored := [b];
  typed := nobody;
  tmp_root := "/tmp/";
  tmp_random := "4711xYz"
|}.

(** A block with a file named as the method every object inherits, beside
    a file called [notes.txt]. *)
Definition shadowing : StorageBlock := {|
  id := "def456";
  url := "https://api/def456";
  html_url := "https://gist/def456";
  description := "";
  files := [("hasOwnProperty", {| content := "x" |});
            ("notes.txt", {| content := "old" |})]
|}.

(** The user at [scratch], the provider authenticated and holding [b]. *)
Definition adding (b : StorageBlock) : script := {|
  on_screen := [scratch];
  authenticated := true;
  stored := [b];
  typed := nobody;
  tmp_root := "/tmp/";
  tmp_random := "4711xYz"
|}.

(* ================================================================= *)
(** ** More readings of runs *)

(** The text [_showError] puts between its tag and the provider's name. *)
Definition shown_message (error : thrown) : string :=
  match error with
  | ThrownString s => s
  | ThrownError m => if Str.is_empty m then "An unknown error occurred" else m
  | ThrownOther => "An unknown error occurred"
  end.

(** The error notification for a thrown value. *)
Definition error_notice (this : Commands) (error : thrown) : event unit :=
  ShowErrorMessage
    ("GIST ERROR: " ++ shown_message error ++ " [" ++ provider_name this ++ "]").

(** The call shows an error notification. *)
Definition shows_error (e : entry) : bool :=
  match e with
  | Entry ev _ => match ev with ShowErrorMessage _ => true | _ => false end
  end.

(** The provider operations that change what the provider stores. *)
Inductive mutation : Type :=
| Creates | Edits | Removes | Deletes | Describes.

Definition mutation_of (e : entry) : option mutation :=
  match e with
  | Entry ev _ =>
      match ev with
      | CreateFile _ _ _ _ => Some Creates
      | EditFile _ _ _ => Some Edits
      | RemoveFileFromStorageBlock _ _ => Some Removes
      | DeleteStorageBlock _ => Some Deletes
      | ChangeDescription _ _ => Some Describes
      | _ => None
      end
  end.

Definition same_mutation (a b : mutation) : bool :=
  match a, b with
  | Creates, Creates | Edits, Edits | Removes, Removes
  | Deletes, Deletes | Describes, Describes => true
  | _, _ => false
  end.

(** The call changes the provider's store in another way than [allowed]
    ([None]: in any way at all). *)
Definition strays (allowed : option mutation) (e : entry) : bool :=
  match mutation_of e, allowed with
  | None, _ => false
  | Some m, Some a => negb (same_mutation m a)
  | Some _, None => true
  end.

(** The file a call wrote, when it is a [writeFileSync] that returned. *)
Definition wrote (e : entry) : option string :=
  match e with
  | Entry ev res =>
      match ev in event R return result R -> option string with
      | WriteFileSync file _ => fun res =>
          match res with Returns _ => Some file | Fails _ => None end
      | _ => fun _ => None
      end res
  end.

(** The file a call asks the host to open as a document. *)
Definition opens (e : entry) : option string :=
  match e with
  | Entry ev _ =>
      match ev with OpenTextDocument file => Some file | _ => None end
  end.

(** A monitor over a run: every document is opened right after its file has
    been written; [last] is the file the call before wrote. *)
Fixpoint written_first (last : option string) (tr : trace) : bool :=
  match tr with
  | [] => true
  | e :: tr' =>
      match opens e with
      | Some file =>
          match last with
          | Some f => String.eqb f file
          | None => false
          end
      | None => true
      end
      && written_first (wrote e) tr'
  end.

(** The call asks the host to open a document. *)
Definition asks_to_open (e : entry) : bool :=
  match opens e with Some _ => true | None => false end.

(** Every document of the run is opened right after its file was written,
    whatever was written before the run. *)
Definition written_before_opened (tr : trace) : Prop :=
  forall last, written_first last tr = true.

(** A run shows no error, or it ends with the report of one error: the log
    entry and the notification, and none before. *)
Definition reports_once (this : Commands) (tr : trace) : Prop :=
  existsb shows_error tr = false
  \/ exists pre e r1 r2,
      tr = pre ++ [Entry (ConsoleError e) r1; Entry (error_notice this e) r2]
      /\ existsb shows_error pre = false.

(** The world of a script, but with a provider that refuses every change. *)
Definition refusing (s : script) : world :=
  fun R tr ev =>
    match mutation_of (Entry ev (scripted s R tr ev)) with
    | Some _ => Fails (ThrownError "Forbidden")
    | None => scripted s R tr ev
    end.

(** The world of a script, but on a host where [open] throws. *)
Definition no_browser (s : script) : world :=
  fun R tr ev =>
    match ev in event R return result R -> result R with
    | OpenUrl _ => fun _ => Fails (ThrownError "no browser")
    | _ => fun r => r
    end (scripted s R tr ev).

(** The user at [editor_a], with [idle]'s provider. *)
Definition at_index : script := {|
  on_screen := [editor_a];
  authenticated := true;
  stored := [site];
  typed := nobody;
  tmp_root := "/tmp/";
  tmp_random := "4711xYz"
|}.

(** Someone not logged in who dismisses every prompt. *)
Definition logged_out : script := {|
  on_screen := [scratch];
  authenticated := false;
  stored := [site];
  typed := nobody;
  tmp_root := "/tmp/";
  tmp_random := "4711xYz"
|}.

(** A provider with nothing to pick from: the quick pick has no item. *)
Definition empty_handed : script := {|
  on_screen := [scratch];
  authenticated := true;
  stored := [];
  typed := yes;
  tmp_root := "/tmp/";
  tmp_random := "4711xYz"
|}.

(* ================================================================= *)
(** ** Choosing the provider *)

(** What [_init] and [_setProvider] read and write: the [providerKey] entry
    of the [Memento] store and the field [_provider].  [P] is what the field
    can hold: a service, or whatever else a lookup in the services object
    yields. *)
Record Chosen (P : Type) : Type := {
  providerKey : option string;
  _provider : option P
}.
Arguments providerKey {P} c.
Arguments _provider {P} c.

(** The services object [_codeFileServices]: the services registered in
    it, as the list of its own entries, keys distinct; and what a lookup
    finds further up, on the object's prototype, under a key that is not its
    own.  An ordinary object inherits [constructor], [toString] and their
    like; [None] is [undefined]. *)
Record Services (P : Type) : Type := {
  registered : list (string * P);
  inherited : string -> option P
}.
Arguments registered {P} s.
Arguments inherited {P} s.

(** The service registered under [key], if any. *)
Definition registered_as {P} (services : Services P) (key : string)
  : option P :=
  match find (fun kv => String.eqb (fst kv) key) (registered services) with
  | Some kv => Some (snd kv)
  | None => None
  end.

(** [this._codeFileServices[key]]: an own entry, or else what is
    inherited. *)
Definition service {P} (services : Services P) (key : string) : option P :=
  match registered_as services key with
  | Some p => Some p
  | None => inherited services key
  end.

(** [_setProvider]; [update] is how [this._store.update] ends: when it
    rejects, the assignment after it is not reached. *)
Definition _setProvider {P} (services : Services P)
           (update : result unit) (key : string) (st : Chosen P)
  : result unit * Chosen P :=
  match update with
  | Returns _ =>
      (Returns tt,
       {| providerKey := Some key; _provider := service services key |})
  | Fails e => (Fails e, st)
  end.

(** [_init]: a stored key that is not empty is taken; without one, the only
    registered service is, when there is exactly one. *)
Definition _init {P} (services : Services P) (update : result unit)
           (st : Chosen P) : result unit * Chosen P :=
  match providerKey st with
  | Some (String _ _ as key) => _setProvider services update key st
  | _ =>
      match registered services with
      | [(key, _)] => _setProvider services update key st
      | _ => (Returns tt, st)
      end
  end.

(** The field [_provider] is in step with the store: when it is set, it is
    what the services object holds under the stored key. *)
Definition in_step {P} (services : Services P) (st : Chosen P) : Prop :=
  match _provider st with
  | Some p =>
      exists key, providerKey st = Some key /\ service services key = Some p
  | None => True
  end.

(** One service registered as [gist], in an ordinary object: of what such
    an object inherits, [constructor] stands for all. *)
Definition only_gist : Services string := {|
  registered := [("gist", "the Gist service")];
  inherited := fun key =>
    if String.eqb key "constructor" then Some "function Object" else None
|}.

(* ================================================================= *)
(** * Proofs *)

(** ** Strings *)

Lemma app_assoc_s (a b c : string) : ((a ++ b) ++ c = a ++ (b ++ c))%string.
Proof. induction a; simpl; congruence. Qed.

Lemma app_nil_r_s (a : string) : (a ++ "")%string = a.
Proof. induction a; simpl; congruence. Qed.

Lemma length_app_s (a b : string) :
  String.length (a ++ b) = String.length a + String.length b.
Proof. induction a; simpl; congruence. Qed.

Lemma app_inv_head_s (a b c : string) :
  (a ++ b = a ++ c)%string -> b = c.
Proof. induction a; simpl; intros H; [assumption | injection H; auto]. Qed.

Lemma app_inv_tail_s (a b c : string) :
  (a ++ c = b ++ c)%string -> a = b.
Proof.
  revert b; induction a as [|x a IH]; intros [|y b] H; simpl in H.
  - reflexivity.
  - apply (f_equal String.length) in H. simpl in H.
    rewrite length_app_s in H. lia.
  - apply (f_equal String.length) in H. simpl in H.
    rewrite length_app_s in H. lia.
  - injection H as -> H. f_equal. auto.
Qed.

Lemma drop_0 (s : string) : Str.drop 0 s = s.
Proof. destruct s; reflexivity. Qed.

Lemma drop_app_length (a b : string) :
  Str.drop (String.length a) (a ++ b) = b.
Proof. induction a; simpl; [apply drop_0 | assumption]. Qed.

Lemma drop_app_le (n : nat) (a b : string) :
  n <= String.length a -> Str.drop n (a ++ b) = (Str.drop n a ++ b)%string.
Proof.
  revert a; induction n as [|n IH]; intros a H.
  - now rewrite !drop_0.
  - destruct a as [|x a]; simpl in *; [lia | apply IH; lia].
Qed.

Lemma drop_app_plus (n : nat) (a b : string) :
  Str.drop (String.length a + n) (a ++ b) = Str.drop n b.
Proof. induction a; simpl; [reflexivity | assumption]. Qed.

Lemma drop_drop (n m : nat) (s : string) :
  Str.drop n (Str.drop m s) = Str.drop (m + n) s.
Proof.
  revert s; induction m as [|m IH]; intros s.
  - now rewrite drop_0.
  - destruct s as [|x s]; simpl.
    + destruct n; reflexivity.
    + apply IH.
Qed.

Lemma take_app_length (a b : string) :
  Str.take (String.length a) (a ++ b) = a.
Proof. induction a; simpl; [destruct b; reflexivity | congruence]. Qed.

Lemma take_drop (n : nat) (s : string) :
  (Str.take n s ++ Str.drop n s)%string = s.
Proof.
  revert s; induction n as [|n IH]; intros [|x s]; simpl; try reflexivity.
  now rewrite IH.
Qed.

Lemma prefix_app (a b : string) : prefix a (a ++ b) = true.
Proof.
  induction a as [|x a IH]; simpl.
  - destruct b; reflexivity.
  - destruct (ascii_dec x x); [assumption | congruence].
Qed.

Lemma prefix_nil (s : string) : prefix "" s = true.
Proof. destruct s; reflexivity. Qed.

Lemma span_all (p : ascii -> bool) (a : string) :
  Str.forallb p a = true -> Str.span p a = String.length a.
Proof.
  induction a as [|x a IH]; simpl; [reflexivity |].
  intros [-> H]%andb_true_iff. now rewrite IH.
Qed.

Lemma span_stop (p : ascii -> bool) (a : string) (c : ascii) (b : string) :
  Str.forallb p a = true -> p c = false ->
  Str.span p (a ++ String c b) = String.length a.
Proof.
  intros Ha Hc. induction a as [|x a IH]; simpl in *.
  - now rewrite Hc.
  - apply andb_true_iff in Ha as [-> Ha]. now rewrite IH.
Qed.

Lemma span_app_ge (p : ascii -> bool) (a b : string) :
  Str.forallb p a = true -> String.length a <= Str.span p (a ++ b).
Proof.
  induction a as [|x a IH]; simpl; [lia |].
  intros [-> H]%andb_true_iff. specialize (IH H). lia.
Qed.

Lemma span_le_length (p : ascii -> bool) (s : string) :
  Str.span p s <= String.length s.
Proof. induction s as [|x s IH]; simpl; [lia | destruct (p x); lia]. Qed.

Lemma forallb_app_s (p : ascii -> bool) (a b : string) :
  Str.forallb p (a ++ b) = Str.forallb p a && Str.forallb p b.
Proof. induction a as [|x a IH]; simpl; [reflexivity |]. now rewrite IH, andb_assoc. Qed.

Lemma take_span_all (p : ascii -> bool) (s : string) :
  Str.forallb p s = true -> Str.take (Str.span p s) s = s.
Proof.
  induction s as [|x s IH]; simpl; [reflexivity |].
  intros [-> H]%andb_true_iff. simpl. now rewrite IH.
Qed.

Lemma occurs_drop (needle s : string) (n : nat) :
  prefix needle (Str.drop n s) = true -> Str.occurs needle s = true.
Proof.
  revert s; induction n as [|n IH]; intros s H.
  - rewrite drop_0 in H. destruct s; cbn [Str.occurs]; rewrite H; reflexivity.
  - destruct s as [|x s]; cbn [Str.occurs Str.drop] in *.
    + now rewrite H.
    + rewrite (IH _ H). apply orb_true_r.
Qed.

(** A needle without the character [c] that starts [a ++ c :: b] starts [a]. *)
Lemma prefix_before (needle a : string) (c : ascii) (b : string) :
  lacks c needle = true ->
  prefix needle (a ++ String c b) = true -> prefix needle a = true.
Proof.
  revert a; induction needle as [|x t IH]; intros a Hl H.
  - apply prefix_nil.
  - unfold lacks in Hl. simpl in Hl. apply andb_true_iff in Hl as [Hx Ht].
    destruct a as [|y a]; simpl in *.
    + destruct (ascii_dec x c) as [->|]; [| discriminate].
      now rewrite Ascii.eqb_refl in Hx.
    + destruct (ascii_dec x y); [| discriminate]. now apply IH.
Qed.

(** ** The matcher *)

Lemma first_down_hit {A} (f : nat -> option A) (n : nat) (r : A) :
  f n = Some r -> Regex.first_down f n = Some r.
Proof. intros H. destruct n; simpl; now rewrite H. Qed.

Lemma first_down_skip {A} (f : nat -> option A) (n p : nat) (r : A) :
  p <= n -> f p = Some r -> (forall k, p < k <= n -> f k = None) ->
  Regex.first_down f n = Some r.
Proof.
  induction n as [|n IH]; intros Hp Hf Hk.
  - replace p with 0 in Hf by lia. now apply first_down_hit.
  - destruct (Nat.eq_dec p (S n)) as [->|Hne]; [now apply first_down_hit |].
    simpl. rewrite (Hk (S n)) by lia. apply IH; [lia | assumption |].
    intros k Hlt. apply Hk. lia.
Qed.

Lemma first_down_none {A} (f : nat -> option A) (n : nat) :
  Regex.first_down f n = None -> forall k, k <= n -> f k = None.
Proof.
  induction n as [|n IH]; simpl; intros H k Hk.
  - replace k with 0 by lia. destruct (f 0); [discriminate | reflexivity].
  - destruct (f (S n)) eqn:E; [discriminate |].
    destruct (Nat.eq_dec k (S n)) as [->|]; [assumption | apply IH; [assumption | lia]].
Qed.

Lemma first_down_some {A} (f : nat -> option A) (n : nat) (r : A) :
  Regex.first_down f n = Some r -> exists k, k <= n /\ f k = Some r.
Proof.
  induction n as [|n IH]; simpl; intros H.
  - destruct (f 0) eqn:E; [| discriminate]. exists 0. split; [lia | congruence].
  - destruct (f (S n)) eqn:E.
    + exists (S n). split; [lia | congruence].
    + destruct (IH H) as (k & Hk & Hf). exists k. split; [lia | assumption].
Qed.

Lemma match_lit (l : string) (p : Regex.pattern) (s : string) :
  Regex.match_here (Regex.Lit l :: p) (l ++ s) = Regex.match_here p s.
Proof. simpl. now rewrite prefix_app, drop_app_length. Qed.

Lemma match_lit_no (l : string) (p : Regex.pattern) (s : string) :
  prefix l s = false -> Regex.match_here (Regex.Lit l :: p) s = None.
Proof. intros H. simpl. now rewrite H. Qed.

Lemma match_group_run (k : Regex.cls) (p : Regex.pattern) (a b : string)
      (r : list string) :
  Str.span (Regex.accepts k) (a ++ b) = String.length a ->
  Regex.match_here p b = Some r ->
  Regex.match_here (Regex.Group k :: p) (a ++ b) = Some (a :: r).
Proof.
  intros Hs Hm. simpl. rewrite Hs. apply first_down_hit.
  now rewrite take_app_length, drop_app_length, Hm.
Qed.

Lemma match_star_run (k : Regex.cls) (p : Regex.pattern) (a b : string)
      (r : list string) :
  Str.span (Regex.accepts k) (a ++ b) = String.length a ->
  Regex.match_here p b = Some r ->
  Regex.match_here (Regex.Star k :: p) (a ++ b) = Some r.
Proof.
  intros Hs Hm. simpl. rewrite Hs. apply first_down_hit.
  now rewrite drop_app_length.
Qed.

Lemma match_group_end (k : Regex.cls) (s : string) :
  Regex.match_here [Regex.Group k] s
  = Some [Str.take (Str.span (Regex.accepts k) s) s].
Proof. simpl. now apply first_down_hit. Qed.

Lemma match_here_groups (p : Regex.pattern) :
  forall s l, Regex.match_here p s = Some l -> List.length l = Regex.groups p.
Proof.
  induction p as [|a p IH]; intros s l H; simpl in H.
  - now injection H as <-.
  - destruct a as [t | k | k]; simpl.
    + destruct (prefix t s); [eauto | discriminate].
    + apply first_down_some in H as (n & _ & H). eauto.
    + apply first_down_some in H as (n & _ & H).
      destruct (Regex.match_here p (Str.drop n s)) eqn:E; [| discriminate].
      injection H as <-. simpl. f_equal. eauto.
Qed.

Lemma exec_some (p : Regex.pattern) (s : string) (l : list string) :
  Regex.exec p s = Some l ->
  exists n, Regex.match_here p (Str.drop n s) = Some l.
Proof.
  induction s as [|x s IH]; simpl; intros H.
  - destruct (Regex.match_here p "") eqn:E; [| discriminate].
    exists 0. simpl. congruence.
  - destruct (Regex.match_here p (String x s)) eqn:E.
    + exists 0. simpl. congruence.
    + destruct (IH H) as (n & Hn). now exists (S n).
Qed.

Lemma exec_none (p : Regex.pattern) (s : string) :
  Regex.exec p s = None ->
  forall n, Regex.match_here p (Str.drop n s) = None.
Proof.
  induction s as [|x s IH]; simpl; intros H n.
  - destruct (Regex.match_here p "") eqn:E; [discriminate |].
    destruct n; assumption.
  - destruct (Regex.match_here p (String x s)) eqn:E; [discriminate |].
    destruct n; simpl; [assumption | now apply IH].
Qed.

Lemma exec_here (p : Regex.pattern) (s : string) (l : list string) :
  Regex.match_here p s = Some l -> Regex.exec p s = Some l.
Proof. intros H. destruct s; simpl; now rewrite H. Qed.

(** ** The codec *)

Lemma sep_not_in_tag (pf : platform) : lacks (path_sep pf) tag = true.
Proof. destruct pf; reflexivity. Qed.

Lemma sep_refused (pf : platform) :
  Regex.accepts (Regex.Except (path_sep pf)) (path_sep pf) = false.
Proof. destruct pf; reflexivity. Qed.

Lemma tag_not_at_sep (pf : platform) (s : string) :
  prefix tag (String (path_sep pf) s) = false.
Proof. destruct pf; reflexivity. Qed.

(** The text [vscode_gist_] does not overlap itself. *)
Lemma tag_overlap (j : nat) (s : string) :
  j < 11 -> prefix tag (Str.drop (S j) (tag ++ s)) = false.
Proof.
  intros H. do 11 (destruct j as [|j]; [reflexivity |]). lia.
Qed.

(** The pattern after its leading star matches a working-copy segment and
    what follows it, capturing the block id and the first line of the
    rest. *)
Lemma segment_match (pf : platform) (blockId junk rest : string) :
  lacks "_" blockId = true ->
  lacks (path_sep pf) junk = true ->
  Regex.match_here (tl (regexp pf))
    (tag ++ (blockId ++ "_" ++ junk) ++ String (path_sep pf) rest)
  = Some [blockId; first_line rest].
Proof.
  intros Hid Hjunk. unfold regexp, tag. cbn [tl].
  rewrite match_lit, !app_assoc_s.
  apply match_group_run.
  { apply span_stop; [exact Hid | reflexivity]. }
  change ("_" ++ junk ++ String (path_sep pf) rest)%string
    with ("_" ++ (junk ++ String (path_sep pf) rest))%string.
  rewrite match_lit.
  apply match_star_run.
  { apply span_stop; [exact Hjunk | apply sep_refused]. }
  change (String (path_sep pf) rest)
    with (String (path_sep pf) "" ++ rest)%string.
  rewrite match_lit. apply match_group_end.
Qed.

(** Past the start of such a segment the pattern finds nothing, when the
    text [vscode_gist_] does not come back in the directory name and the
    rest has no match of its own. *)
Lemma no_later_match (pf : platform) (name rest : string) (j : nat) :
  Str.occurs tag name = false ->
  Regex.exec (regexp pf) rest = None ->
  Regex.match_here (tl (regexp pf))
    (Str.drop (S j) (tag ++ name ++ String (path_sep pf) rest)) = None.
Proof.
  intros Hocc Hrest.
  destruct (Nat.lt_ge_cases j 11) as [Hj | Hj].
  { apply match_lit_no. now apply tag_overlap. }
  replace (S j) with (String.length tag + (j - 11))
    by (cbn [tag String.length]; lia).
  rewrite drop_app_plus.
  set (m := j - 11).
  destruct (Nat.lt_trichotomy m (String.length name)) as [Hm | [Hm | Hm]].
  - apply match_lit_no. fold tag.
    destruct (prefix tag (Str.drop m (name ++ String (path_sep pf) rest)))
      eqn:E; [exfalso | reflexivity].
    rewrite drop_app_le in E by lia.
    apply prefix_before in E; [| apply sep_not_in_tag].
    apply occurs_drop in E. congruence.
  - apply match_lit_no. rewrite Hm, drop_app_length. apply tag_not_at_sep.
  - replace m with (String.length name + S (m - String.length name - 1))
      by lia.
    rewrite drop_app_plus. cbn [Str.drop].
    pose proof (exec_none _ _ Hrest (m - String.length name - 1)) as Hn.
    unfold regexp in Hn. cbn [Regex.match_here] in Hn.
    pose proof (first_down_none _ _ Hn 0 (Nat.le_0_l _)) as H0.
    cbv beta in H0. rewrite drop_0 in H0. exact H0.
Qed.

Lemma decode_of_exec (pf : platform) (s a b : string) :
  Regex.exec (regexp pf) s = Some [a; b] ->
  _getCodeFileDetails pf s = Some {| storageBlockId := a; fileName := b |}.
Proof. intros H. unfold _getCodeFileDetails. now rewrite H. Qed.

Lemma exec_of_decode_none (pf : platform) (s : string) :
  _getCodeFileDetails pf s = None -> Regex.exec (regexp pf) s = None.
Proof.
  unfold _getCodeFileDetails. intros H.
  destruct (Regex.exec (regexp pf) s) as [l|] eqn:E; [| reflexivity].
  destruct (exec_some _ _ _ E) as (n & Hn).
  apply match_here_groups in Hn. simpl in Hn.
  destruct l as [|a [|b [|c l]]]; simpl in Hn; try discriminate.
Qed.

(** Decoding a path that runs through a working-copy directory: whatever
    stands before the directory name on the same line, the block id is
    recovered, and the file name up to its first line terminator. *)
Lemma decode_segment (pf : platform) (pre blockId junk rest : string) :
  single_line pre = true ->
  lacks "_" blockId = true ->
  lacks (path_sep pf) junk = true ->
  Str.occurs tag (blockId ++ "_" ++ junk) = false ->
  _getCodeFileDetails pf rest = None ->
  _getCodeFileDetails pf
    (pre ++ tmp_prefix blockId ++ junk ++ String (path_sep pf) rest)
  = Some {| storageBlockId := blockId; fileName := first_line rest |}.
Proof.
  intros Hpre Hid Hjunk Hocc Hrest%exec_of_decode_none.
  apply decode_of_exec, exec_here.
  set (name := (blockId ++ "_" ++ junk)%string) in *.
  replace (pre ++ tmp_prefix blockId ++ junk ++ String (path_sep pf) rest)%string
    with (pre ++ tag ++ name ++ String (path_sep pf) rest)%string
    by (unfold tmp_prefix, name; now rewrite !app_assoc_s).
  change (regexp pf) with (Regex.Star Regex.Dot :: tl (regexp pf)).
  cbn [Regex.match_here].
  apply first_down_skip with (p := String.length pre).
  - apply span_app_ge. exact Hpre.
  - rewrite drop_app_length. now apply segment_match.
  - intros k [Hlo _].
    replace k with (String.length pre + S (k - String.length pre - 1)) by lia.
    rewrite drop_app_plus. now apply no_later_match.
Qed.

(** C1, amended.  A path made of whatever [tmp.dirSync] puts before the
    directory name (on one line), the encoded prefix of [blockId], the
    random rest of the directory name, a separator and [name] decodes to
    [blockId] and [name], when [blockId] has no underscore, that random rest
    has no separator and does not bring the text [vscode_gist_] back into
    the directory name, and [name] has no line terminator and does not
    itself match the pattern. *)
Theorem codec_round_trip (pf : platform) (root blockId junk name : string) :
  single_line root = true ->
  lacks "_" blockId = true ->
  lacks (path_sep pf) junk = true ->
  Str.occurs tag (blockId ++ "_" ++ junk) = false ->
  single_line name = true ->
  _getCodeFileDetails pf name = None ->
  _getCodeFileDetails pf
    (plain_join pf (root ++ tmp_prefix blockId ++ junk) name)
  = Some {| storageBlockId := blockId; fileName := name |}.
Proof.
  intros Hroot Hid Hjunk Hocc Hline Hname.
  unfold plain_join. rewrite !app_assoc_s.
  rewrite decode_segment by assumption.
  unfold first_line. now rewrite take_span_all.
Qed.

Lemma codec_round_trip_witness :
  _getCodeFileDetails posix
    (plain_join posix ("/tmp/" ++ tmp_prefix "abc123" ++ "4711xYz") "x.txt")
  = Some {| storageBlockId := "abc123"; fileName := "x.txt" |}.
Proof.
  apply (codec_round_trip posix "/tmp/" "abc123" "4711xYz" "x.txt");
    reflexivity.
Defined.

(** C1 as stated fails twice over: a file name of two lines comes back cut
    at the line break, and a random part that spells a second prefix (it has
    no separator) yields the id inside it. *)
Lemma codec_round_trip_counterexample :
  (lacks "_" "abc" = true /\ lacks "/" "abc" = true /\
   lacks "/" "4711" = true /\
   _getCodeFileDetails posix (String "a" (String "010" "b")) = None /\
   _getCodeFileDetails posix
     (plain_join posix (tmp_prefix "abc" ++ "4711")
                 (String "a" (String "010" "b")))
   = Some {| storageBlockId := "abc"; fileName := "a" |})
  /\
  (lacks "/" "vscode_gist_q_r" = true /\
   _getCodeFileDetails posix "f" = None /\
   _getCodeFileDetails posix
     (plain_join posix (tmp_prefix "abc" ++ "vscode_gist_q_r") "f")
   = Some {| storageBlockId := "q"; fileName := "f" |}).
Proof. repeat split; reflexivity. Qed.

(** ** Running programs *)

Lemma exec_bind {A B} (w : world) (p : prog A) (f : A -> prog B) :
  forall tr,
    exec w (bind p f) tr =
    match exec w p tr with
    | (tr', Returns a) => exec w (f a) tr'
    | (tr', Fails e) => (tr', Fails e)
    end.
Proof.
  induction p as [a | e | R ev k IH]; intros tr; simpl; try reflexivity.
  apply IH.
Qed.

Lemma exec_try_catch {A} (w : world) (p : prog A) (h : thrown -> prog A) :
  forall tr,
    exec w (try_catch p h) tr =
    match exec w p tr with
    | (tr', Returns a) => (tr', Returns a)
    | (tr', Fails e) => exec w (h e) tr'
    end.
Proof.
  induction p as [a | e | R ev k IH]; intros tr; simpl; try reflexivity.
  apply IH.
Qed.

Lemma exec_call {R} (w : world) (ev : event R) (tr : trace) :
  exec w (call ev) tr = (tr ++ [Entry ev (w R tr ev)], w R tr ev).
Proof. simpl. destruct (w R tr ev); reflexivity. Qed.

Lemma exec_fire {R} (w : world) (ev : event R) (tr : trace) :
  exec w (fire ev) tr = (tr ++ [Entry ev (w R tr ev)], Returns tt).
Proof. reflexivity. Qed.

(** A run only adds calls to those made before. *)
Lemma exec_extends {A} (w : world) (p : prog A) :
  forall tr, exists new, fst (exec w p tr) = tr ++ new.
Proof.
  induction p as [a | e | R ev k IH]; intros tr; simpl.
  - exists []. now rewrite app_nil_r.
  - exists []. now rewrite app_nil_r.
  - destruct (IH (w R tr ev) (tr ++ [Entry ev (w R tr ev)])) as (new & ->).
    eexists. now rewrite <- app_assoc.
Qed.

Lemma exec_showError (w : world) (this : Commands) (e : thrown)
      (tr : trace) :
  snd (exec w (_showError this e) tr) = Returns tt.
Proof. reflexivity. Qed.

(** A body wrapped in [try ... catch (error) { this._showError(error) }]
    returns, whatever the world does. *)
Lemma guarded_returns (w : world) (this : Commands) (p : prog unit)
      (tr : trace) :
  snd (exec w (try_catch p (_showError this)) tr) = Returns tt.
Proof.
  rewrite exec_try_catch.
  destruct (exec w p tr) as [tr' [[] | e]]; [reflexivity |].
  apply exec_showError.
Qed.

(** ** Saving *)

(** C2.  What the code does on a saved document that does not decode: the
    destructuring of [undefined] throws before the [try], so the handler's
    promise rejects; no call is made, the provider's included. *)
Theorem save_of_foreign_document_throws (this : Commands) (w : world)
        (doc : vscode.TextDocument) :
  _getCodeFileDetails (os this) (vscode.fileName doc) = None ->
  run w (onSaveTextDocument this doc) = ([], Fails type_error).
Proof. intros H. unfold run, onSaveTextDocument. now rewrite H. Qed.

Lemma save_of_foreign_document_witness :
  run (scripted idle) (onSaveTextDocument gist notes)
  = ([], Fails type_error).
Proof.
  apply (save_of_foreign_document_throws gist (scripted idle) notes).
  reflexivity.
Defined.

(** C3.  The seven commands have their whole body in the [try] and return
    whatever happens; [onSaveTextDocument] returns when the document
    decodes, and lets the [TypeError] of the destructuring out when it does
    not, as on [notes]. *)
Theorem handlers_catch_all_but_save (this : Commands) (w : world) :
  (forall favorite, snd (run w (openCodeBlock this favorite)) = Returns tt)
  /\ snd (run w (createCodeBlock this)) = Returns tt
  /\ snd (run w (openCodeBlockInBrowser this)) = Returns tt
  /\ snd (run w (deleteCodeBlock this)) = Returns tt
  /\ snd (run w (removeFileFromCodeBlock this)) = Returns tt
  /\ snd (run w (addToCodeBlock this)) = Returns tt
  /\ snd (run w (changeCodeBlockDescription this)) = Returns tt
  /\ (forall doc d,
        _getCodeFileDetails (os this) (vscode.fileName doc) = Some d ->
        snd (run w (onSaveTextDocument this doc)) = Returns tt)
  /\ snd (run w (onSaveTextDocument this notes)) = Fails type_error.
Proof.
  repeat apply conj; intros; try apply guarded_returns.
  - unfold run, onSaveTextDocument. rewrite H. apply guarded_returns.
  - reflexivity.
Qed.

(** C10, amended.  When the directory the decoder settles on is named
    [vscode_gist__] and a suffix (no separator in it, the text
    [vscode_gist_] not coming back in it), whatever stands before it on the
    line, and what follows it has no match of its own, the document decodes
    to the empty block id, and saving it makes no call at all. *)
Theorem empty_id_is_not_saved (this : Commands) (w : world)
        (pre suffix rest data : string) :
  single_line pre = true ->
  lacks (path_sep (os this)) suffix = true ->
  Str.occurs tag (String "_" suffix) = false ->
  _getCodeFileDetails (os this) rest = None ->
  let doc := {| vscode.fileName :=
                  pre ++ "vscode_gist__" ++ suffix
                      ++ String (path_sep (os this)) rest;
                vscode.text := data |} in
  _getCodeFileDetails (os this) (vscode.fileName doc)
  = Some {| storageBlockId := ""; fileName := first_line rest |}
  /\ run w (onSaveTextDocument this doc) = ([], Returns tt).
Proof.
  intros Hpre Hsuf Hocc Hrest doc.
  assert (E : _getCodeFileDetails (os this) (vscode.fileName doc)
              = Some {| storageBlockId := ""; fileName := first_line rest |}).
  { unfold doc. cbn [vscode.fileName].
    change "vscode_gist__" with (tmp_prefix "").
    apply decode_segment; try assumption. reflexivity. }
  split; [exact E |].
  unfold run, onSaveTextDocument. rewrite E. reflexivity.
Qed.

Lemma empty_id_is_not_saved_witness :
  _getCodeFileDetails posix "/tmp/vscode_gist__4711/x.txt"
  = Some {| storageBlockId := ""; fileName := "x.txt" |}
  /\ run (scripted idle)
         (onSaveTextDocument gist
            {| vscode.fileName := "/tmp/vscode_gist__4711/x.txt";
               vscode.text := "hello" |})
     = ([], Returns tt).
Proof.
  apply (empty_id_is_not_saved gist (scripted idle)
           "/tmp/" "4711" "x.txt" "hello"); reflexivity.
Defined.

(** C10 as stated fails on a path that has such a segment and a working
    copy's below it: the decoder settles on the last one, and the save goes
    to the provider.  The same happens when the suffix of the segment spells
    a prefix of its own. *)
Lemma empty_id_counterexample :
  (("/tmp/vscode_gist__x/vscode_gist_abc_y/f"
    = "/tmp/" ++ "vscode_gist__" ++ "x" ++ "/" ++ "vscode_gist_abc_y/f")%string
   /\ _getCodeFileDetails posix "/tmp/vscode_gist__x/vscode_gist_abc_y/f"
      = Some {| storageBlockId := "abc"; fileName := "f" |}
   /\ run (scripted idle)
          (onSaveTextDocument gist
             {| vscode.fileName := "/tmp/vscode_gist__x/vscode_gist_abc_y/f";
                vscode.text := "hello" |})
      = ([Entry (EditFile "abc" "f" "hello") (Returns tt);
          Entry (ShowInformationMessage
                   "GIST MESSAGE: File Saved To Block [Gist]") (Returns tt)],
         Returns tt))
  /\
  (("/tmp/vscode_gist__vscode_gist_abc_y/f"
    = "/tmp/" ++ "vscode_gist__" ++ "vscode_gist_abc_y" ++ "/" ++ "f")%string
   /\ lacks "/" "vscode_gist_abc_y" = true
   /\ _getCodeFileDetails posix "/tmp/vscode_gist__vscode_gist_abc_y/f"
      = Some {| storageBlockId := "abc"; fileName := "f" |}).
Proof. repeat split. Qed.

(** ** The collision loop *)

Lemma to_uint_not_nil (n : nat) : Nat.to_uint n <> Decimal.Nil.
Proof.
  intros H. pose proof (Unsigned.of_to n) as E. rewrite H in E.
  simpl in E. subst n. discriminate.
Qed.

Lemma of_nat_inj (i j : nat) : Str.of_nat i = Str.of_nat j -> i = j.
Proof.
  unfold Str.of_nat. intros H.
  apply (f_equal NilZero.uint_of_string) in H.
  rewrite !NilZero.usu in H by apply to_uint_not_nil.
  injection H. apply Unsigned.to_uint_inj.
Qed.

Lemma numbered_inj (name : string) (i j : nat) :
  numbered name i = numbered name j -> i = j.
Proof.
  unfold numbered. intros H.
  apply app_inv_head_s, app_inv_tail_s in H. now apply of_nat_inj.
Qed.

Lemma owns_In (fs : list (string * FileContent)) (name : string) :
  owns fs name = true <-> In name (map fst fs).
Proof.
  unfold owns. rewrite existsb_exists, in_map_iff. split.
  - intros (kv & Hin & E%String.eqb_eq). now exists kv.
  - intros (kv & E & Hin). exists kv. split; [assumption |].
    now apply String.eqb_eq.
Qed.

(** The loop's test, by whether a file hides the method. *)
Lemma hasOwnProperty_plain (fs : list (string * FileContent))
      (name : string) :
  owns fs "hasOwnProperty" = false ->
  hasOwnProperty fs name = Returns (owns fs name).
Proof. unfold hasOwnProperty. now intros ->. Qed.

Lemma hasOwnProperty_hidden (fs : list (string * FileContent))
      (name : string) :
  owns fs "hasOwnProperty" = true ->
  hasOwnProperty fs name = Fails not_a_function.
Proof. unfold hasOwnProperty. now intros ->. Qed.

(** With the method hidden the loop throws at its first test. *)
Lemma rename_loop_hidden (fs : list (string * FileContent))
      (original fileName : string) (fuel i : nat) :
  owns fs "hasOwnProperty" = true ->
  rename_loop fuel fs original fileName i = Fails not_a_function.
Proof.
  intros H. destruct fuel; cbn [rename_loop];
    now rewrite (hasOwnProperty_hidden _ _ H).
Qed.

(** Among [n] consecutive numbers one is refused by [p], or [p] takes them
    all. *)
Lemma refused_or_all (p : nat -> bool) (i n : nat) :
  (exists j, i <= j < i + n /\ p j = false)
  \/ (forall j, i <= j < i + n -> p j = true).
Proof.
  induction n as [|n IH].
  - right. intros j Hj. lia.
  - destruct IH as [(j & Hj & Hp) | Hall].
    + left. exists j. split; [lia | assumption].
    + destruct (p (i + n)) eqn:E.
      * right. intros j Hj.
        destruct (Nat.eq_dec j (i + n)) as [->|]; [assumption | apply Hall; lia].
      * left. exists (i + n). split; [lia | assumption].
Qed.

(** A block of [n] files leaves one of the first [n + 1] numbered names
    free. *)
Lemma some_number_free (fs : list (string * FileContent)) (name : string) :
  exists j, 1 <= j < 1 + S (List.length fs)
            /\ owns fs (numbered name j) = false.
Proof.
  destruct (refused_or_all (fun j => owns fs (numbered name j))
                           1 (S (List.length fs)))
    as [H | Hall]; [exact H | exfalso].
  assert (Hincl : incl (map (numbered name) (seq 1 (S (List.length fs))))
                       (map fst fs)).
  { intros x (j & <- & Hj%in_seq)%in_map_iff.
    apply owns_In, Hall. lia. }
  apply NoDup_incl_length in Hincl.
  - rewrite !length_map, length_seq in Hincl. lia.
  - apply Injective_map_NoDup; [| apply seq_NoDup].
    intros i j. apply numbered_inj.
Qed.

(** The loop, its test answering, entered with a taken name at counter [i]:
    it leaves with the first free numbered name from [i] on, when the fuel
    reaches it. *)
Lemma rename_loop_spec (fs : list (string * FileContent))
      (original : string) :
  owns fs "hasOwnProperty" = false ->
  forall fuel i fileName,
    owns fs fileName = true ->
    (exists j, i <= j < i + fuel
               /\ owns fs (numbered original j) = false) ->
    exists j, i <= j < i + fuel
              /\ rename_loop fuel fs original fileName i
                 = Returns (numbered original j)
              /\ owns fs (numbered original j) = false
              /\ forall k, i <= k < j ->
                           owns fs (numbered original k) = true.
Proof.
  intros P.
  induction fuel as [|fuel IH]; intros i fileName Hhas (j & Hj & Hfree).
  - lia.
  - cbn [rename_loop]. rewrite (hasOwnProperty_plain _ _ P), Hhas.
    destruct (owns fs (numbered original i)) eqn:Ei.
    + destruct (IH (S i) (numbered original i) Ei) as (j' & Hj' & E & F & M).
      { exists j. split; [| assumption].
        assert (j <> i) by (intros ->; congruence). lia. }
      exists j'. repeat split; try assumption; try lia.
      intros k Hk. destruct (Nat.eq_dec k i) as [->|]; [assumption |].
      apply M. lia.
    + exists i. repeat split; try lia; try assumption.
      destruct fuel; cbn [rename_loop];
        now rewrite (hasOwnProperty_plain _ _ P), Ei.
Qed.

Lemma lastIndexOf_none (c : ascii) (s : string) :
  lacks c s = true -> Str.lastIndexOf c s = None.
Proof.
  unfold lacks. induction s as [|x s IH]; simpl; [reflexivity |].
  intros [Hx Hs]%andb_true_iff. rewrite (IH Hs).
  apply negb_true_iff in Hx. now rewrite Hx.
Qed.

Lemma lastIndexOf_last (c : ascii) (a b : string) :
  lacks c b = true ->
  Str.lastIndexOf c (a ++ String c b) = Some (String.length a).
Proof.
  intros Hb. induction a as [|x a IH]; simpl.
  - now rewrite (lastIndexOf_none _ _ Hb), Ascii.eqb_refl.
  - now rewrite IH.
Qed.

Lemma take_length (s : string) : Str.take (String.length s) s = s.
Proof. induction s; simpl; congruence. Qed.

Lemma drop_length (s : string) : Str.drop (String.length s) s = "".
Proof. induction s; simpl; congruence. Qed.

(** Where the number goes: before the last dot, or at the end of a name
    without dot. *)
Lemma numbered_with_dot (base ext : string) (i : nat) :
  lacks "." ext = true ->
  numbered (base ++ "." ++ ext) i = (base ++ Str.of_nat i ++ "." ++ ext)%string.
Proof.
  intros H. unfold numbered.
  change (base ++ "." ++ ext)%string with (base ++ String "." ext)%string.
  now rewrite (lastIndexOf_last _ _ _ H), take_app_length, drop_app_length.
Qed.

Lemma numbered_without_dot (name : string) (i : nat) :
  lacks "." name = true -> numbered name i = (name ++ Str.of_nat i)%string.
Proof.
  intros H. unfold numbered.
  now rewrite (lastIndexOf_none _ _ H), take_length, drop_length, app_nil_r_s.
Qed.

Lemma rename_loop_free (fs : list (string * FileContent))
      (original fileName : string) (fuel i : nat) :
  owns fs "hasOwnProperty" = false ->
  owns fs fileName = false ->
  rename_loop fuel fs original fileName i = Returns fileName.
Proof.
  intros P H. destruct fuel; cbn [rename_loop];
    now rewrite (hasOwnProperty_plain _ _ P), H.
Qed.

(** With at least one round more than the block has files, the loop ends by
    its own test, on the first free numbered name. *)
Lemma rename_loop_enough (fs : list (string * FileContent)) (name : string)
      (fuel : nat) :
  owns fs "hasOwnProperty" = false ->
  S (List.length fs) <= fuel ->
  owns fs name = true ->
  exists i, 1 <= i
            /\ rename_loop fuel fs name name 1 = Returns (numbered name i)
            /\ owns fs (numbered name i) = false
            /\ forall j, 1 <= j < i -> owns fs (numbered name j) = true.
Proof.
  intros P Hfuel Hhas.
  destruct (some_number_free fs name) as (j & Hj & Hfree).
  destruct (rename_loop_spec fs name P fuel 1 name Hhas)
    as (i & Hi & E & F & M).
  { exists j. split; [lia | assumption]. }
  exists i. repeat split; try assumption; lia.
Qed.

(** More rounds change nothing, whether the loop ends on a name or throws. *)
Lemma rename_loop_fuel (fs : list (string * FileContent)) (name : string)
      (fuel : nat) :
  S (List.length fs) <= fuel ->
  rename_loop fuel fs name name 1 = free_fileName fs name.
Proof.
  intros Hfuel. unfold free_fileName.
  destruct (owns fs "hasOwnProperty") eqn:P;
    [now rewrite !rename_loop_hidden |].
  destruct (owns fs name) eqn:Hhas.
  - destruct (rename_loop_enough fs name fuel P Hfuel Hhas)
      as (i & Hi & -> & Fi & Mi).
    destruct (rename_loop_enough fs name (S (List.length fs)) P
                                 (Nat.le_refl _) Hhas)
      as (j & Hj & -> & Fj & Mj).
    do 2 f_equal.
    destruct (Nat.lt_trichotomy i j) as [H | [H | H]]; [| assumption |].
    + rewrite Mj in Fi by lia. discriminate.
    + rewrite Mi in Fj by lia. discriminate.
  - now rewrite !rename_loop_free.
Qed.

(** What the loop leaves with, in full: the candidate when it is free, the
    first free numbered name when it is taken. *)
Lemma free_fileName_spec (fs : list (string * FileContent)) (name : string) :
  owns fs "hasOwnProperty" = false ->
  (owns fs name = false -> free_fileName fs name = Returns name)
  /\ (owns fs name = true ->
      exists i, 1 <= i
                /\ free_fileName fs name = Returns (numbered name i)
                /\ owns fs (numbered name i) = false
                /\ forall j, 1 <= j < i -> owns fs (numbered name j) = true)
  /\ exists n, free_fileName fs name = Returns n /\ owns fs n = false.
Proof.
  intros P.
  assert (Hspec : owns fs name = true ->
      exists i, 1 <= i
                /\ free_fileName fs name = Returns (numbered name i)
                /\ owns fs (numbered name i) = false
                /\ forall j, 1 <= j < i -> owns fs (numbered name j) = true).
  { intros Hhas. now apply rename_loop_enough. }
  split; [| split].
  - intros H. now apply rename_loop_free.
  - exact Hspec.
  - destruct (owns fs name) eqn:Hhas.
    + destruct (Hspec eq_refl) as (i & _ & E & F & _).
      now exists (numbered name i).
    + exists name. split; [| assumption]. now apply rename_loop_free.
Qed.

(** ** Creating a block *)

Lemma editor_text_cases (editor : vscode.TextEditor) :
  editor_text editor
  = if vscode.isEmpty (vscode.selection editor)
    then vscode.text (vscode.document editor)
    else vscode.getText (vscode.document editor)
                        (Some (vscode.selection editor)).
Proof.
  unfold editor_text. now destruct (vscode.isEmpty (vscode.selection editor)).
Qed.

(** C7.  [createCodeBlock] with no editor focused makes three calls: it
    reads the active editor, logs the error and shows it, none of them to
    the provider, and returns.  With an editor focused, every [createFile]
    it asks of the provider carries the selection's text when the selection
    is not empty and the whole text otherwise, and it does ask once both
    prompts are answered. *)
Theorem createCodeBlock_text (this : Commands) (w : world)
        (focused : option vscode.TextEditor) :
  w _ [] ActiveTextEditor = Returns focused ->
  match focused with
  | None =>
      let failure := ThrownError "Open a file before creating" in
      calls (fst (run w (createCodeBlock this)))
      = [Called ActiveTextEditor;
         Called (ConsoleError failure);
         Called (ShowErrorMessage
                   ("GIST ERROR: Open a file before creating ["
                      ++ provider_name this ++ "]"))]
      /\ snd (run w (createCodeBlock this)) = Returns tt
      /\ existsb provider_call (fst (run w (createCodeBlock this))) = false
  | Some editor =>
      let e1 := Entry ActiveTextEditor (Returns (Some editor)) in
      let text :=
        if vscode.isEmpty (vscode.selection editor)
        then vscode.text (vscode.document editor)
        else vscode.getText (vscode.document editor)
                            (Some (vscode.selection editor)) in
      (forall n d t p,
          In (n, d, t, p) (creations (fst (run w (createCodeBlock this)))) ->
          t = text)
      /\ (forall d a,
             let ask1 := ShowInputBox "Enter description" None in
             let ask2 := ShowInputBox "Private? Y = Yes, N = No" None in
             w _ [e1] ask1 = Returns d ->
             w _ [e1; Entry ask1 (Returns d)] ask2 = Returns (Some a) ->
             exists rest,
               creations (fst (run w (createCodeBlock this)))
               = [(editor_fileName this editor, d, text, Str.starts_with_y a)]
               /\ calls (fst (run w (createCodeBlock this)))
                  = Called ActiveTextEditor :: Called ask1 :: Called ask2
                    :: Called (CreateFile (editor_fileName this editor) d text
                                          (Str.starts_with_y a))
                    :: rest)
  end.
Proof.
  intros H. destruct focused as [editor |].
  - cbv zeta. rewrite <- editor_text_cases.
    unfold run, createCodeBlock.
    rewrite exec_try_catch, exec_bind, exec_call, H. cbn [app].
    unfold _prompt. rewrite exec_bind, exec_call.
    set (e1 := Entry ActiveTextEditor (Returns (Some editor))).
    set (ask1 := ShowInputBox "Enter description" None).
    set (ask2 := ShowInputBox "Private? Y = Yes, N = No" None).
    split.
    + intros n d t p.
      destruct (w _ [e1] ask1) as [d1 | x1]; cbn beta iota;
        [| cbn; tauto].
      rewrite exec_bind, exec_call.
      destruct (w _ ([e1] ++ [Entry ask1 (Returns d1)]) ask2)
        as [[a |] | x2]; cbn beta iota; [| cbn; tauto | cbn; tauto].
      rewrite exec_bind, exec_call.
      destruct (w StorageBlock _ _) as [sb | x3]; cbn beta iota.
      * rewrite exec_call.
        destruct (w unit _ _) as [[] | x4]; cbn; intros [E | []];
          now injection E.
      * cbn. intros [E | []]. now injection E.
    + intros d a H1 H2. rewrite H1. cbn beta iota.
      rewrite exec_bind, exec_call. cbn [app]. rewrite H2. cbn beta iota.
      rewrite exec_bind, exec_call.
      destruct (w StorageBlock _ _) as [sb | x3]; cbn beta iota.
      * rewrite exec_call.
        destruct (w unit _ _) as [[] | x4]; cbn; eexists; split; reflexivity.
      * cbn. eexists. split; reflexivity.
  - cbv zeta. unfold run, createCodeBlock.
    rewrite exec_try_catch, exec_bind, exec_call, H. cbn.
    repeat split.
Qed.

Lemma createCodeBlock_text_witness :
  (calls (fst (run (scripted idle) (createCodeBlock gist)))
   = [Called ActiveTextEditor;
      Called (ConsoleError (ThrownError "Open a file before creating"));
      Called (ShowErrorMessage
                "GIST ERROR: Open a file before creating [Gist]")]
   /\ snd (run (scripted idle) (createCodeBlock gist)) = Returns tt
   /\ existsb provider_call (fst (run (scripted idle) (createCodeBlock gist)))
      = false)
  /\ (forall n d t p,
         In (n, d, t, p)
            (creations (fst (run (scripted writing) (createCodeBlock gist)))) ->
         t = "hello").
Proof.
  split.
  - exact (createCodeBlock_text gist (scripted idle) None eq_refl).
  - exact (proj1 (createCodeBlock_text gist (scripted writing)
                    (Some scratch_selected) eq_refl)).
Defined.

(** ** Changing the description *)

(** C8.  [changeCodeBlockDescription], once the current document decodes and
    the provider has returned its block: the prompt is pre-filled with the
    block's description; when it is dismissed or left empty the command
    returns after the prompt, with no further call (none to the provider,
    no error shown); when a text is entered the next call is the provider's
    [changeDescription] with the decoded block id and that text. *)
Theorem changeDescription_prompt (this : Commands) (w : world)
        (editor : vscode.TextEditor) (details : CodeFileDetails)
        (block : StorageBlock) (answer : option string) :
  let e1 := Entry ActiveTextEditor (Returns (Some editor)) in
  let fetch := GetStorageBlockById (storageBlockId details) in
  let e2 := Entry fetch (Returns block) in
  let ask := ShowInputBox "Enter Description" (Some (description block)) in
  let e3 := Entry ask (Returns answer) in
  w _ [] ActiveTextEditor = Returns (Some editor) ->
  _getCodeFileDetails (os this) (vscode.fileName (vscode.document editor))
  = Some details ->
  w _ [e1] fetch = Returns block ->
  w _ [e1; e2] ask = Returns answer ->
  match answer with
  | Some (String _ _ as d) =>
      exists res rest,
        fst (run w (changeCodeBlockDescription this))
        = [e1; e2; e3;
           Entry (ChangeDescription (storageBlockId details) d) res] ++ rest
        /\ snd (run w (changeCodeBlockDescription this)) = Returns tt
  | _ =>
      run w (changeCodeBlockDescription this) = ([e1; e2; e3], Returns tt)
  end.
Proof.
  intros e1 fetch e2 ask e3 H1 Hd H2 H3.
  assert (E : exec w (_getCurrentDocument this) [] = ([e1], Returns details)).
  { unfold _getCurrentDocument. rewrite exec_bind, exec_call, H1.
    cbn beta iota. now rewrite Hd. }
  unfold run, changeCodeBlockDescription.
  rewrite exec_try_catch, exec_bind, E. cbn beta iota.
  rewrite exec_bind, exec_call. fold fetch. rewrite H2. cbn [app].
  unfold _prompt. rewrite exec_bind, exec_call. fold ask e2.
  rewrite H3. cbn [app]. fold e3.
  destruct answer as [[| c d] |]; try reflexivity.
  cbn [Str.is_empty]. rewrite exec_bind, exec_call. cbn [app].
  destruct (w unit _ _) as [[] | x]; cbn beta iota.
  - rewrite exec_fire. cbn [fst snd app]. do 2 eexists. split; reflexivity.
  - cbn. do 2 eexists. split; reflexivity.
Qed.

Lemma changeDescription_prompt_witness :
  run (scripted (Build_script [editor_a] true [site] nobody "/tmp/" "4711xYz"))
      (changeCodeBlockDescription gist)
  = ([Entry ActiveTextEditor (Returns (Some editor_a));
      Entry (GetStorageBlockById "abc123") (Returns site);
      Entry (ShowInputBox "Enter Description" (Some "a site"))
            (Returns None)],
     Returns tt).
Proof.
  exact (changeDescription_prompt gist
           (scripted (Build_script [editor_a] true [site] nobody
                                   "/tmp/" "4711xYz"))
           editor_a
           {| storageBlockId := "abc123"; fileName := "index.js" |}
           site None eq_refl eq_refl eq_refl eq_refl).
Defined.

(** ** The login gate *)

Lemma exec_news {A} (w : world) (p : prog A) :
  forall tr, fst (exec w p tr) = tr ++ news w p tr.
Proof.
  induction p as [a | e | R ev k IH]; intros tr; simpl.
  - now rewrite app_nil_r.
  - now rewrite app_nil_r.
  - rewrite IH. now rewrite <- app_assoc.
Qed.

Lemma news_bind {A B} (w : world) (p : prog A) (f : A -> prog B) :
  forall tr,
    news w (bind p f) tr =
    news w p tr ++
    match snd (exec w p tr) with
    | Returns a => news w (f a) (tr ++ news w p tr)
    | Fails _ => []
    end.
Proof.
  induction p as [a | e | R ev k IH]; intros tr; simpl.
  - now rewrite app_nil_r.
  - reflexivity.
  - rewrite IH. now rewrite <- app_assoc.
Qed.

Lemma news_try_catch {A} (w : world) (p : prog A) (h : thrown -> prog A) :
  forall tr,
    news w (try_catch p h) tr =
    news w p tr ++
    match snd (exec w p tr) with
    | Returns _ => []
    | Fails e => news w (h e) (tr ++ news w p tr)
    end.
Proof.
  induction p as [a | e | R ev k IH]; intros tr; simpl.
  - reflexivity.
  - now rewrite app_nil_r.
  - rewrite IH. now rewrite <- app_assoc.
Qed.

Lemma never_news {A} (bad : entry -> bool) (p : prog A) (w : world) :
  never bad p -> forall tr, existsb bad (news w p tr) = false.
Proof.
  induction p as [a | e | R ev k IH]; intros H tr; simpl; try reflexivity.
  destruct (H (w R tr ev)) as [-> Hk]. now apply IH.
Qed.

Lemma never_bind {A B} (bad : entry -> bool) (p : prog A) (f : A -> prog B) :
  never bad p -> (forall a, never bad (f a)) -> never bad (bind p f).
Proof.
  induction p as [a | e | R ev k IH]; intros Hp Hf; simpl; auto.
  intros r. destruct (Hp r) as [Hb Hk]. split; [assumption | now apply IH].
Qed.

Lemma never_try_catch {A} (bad : entry -> bool) (p : prog A)
      (h : thrown -> prog A) :
  never bad p -> (forall e, never bad (h e)) -> never bad (try_catch p h).
Proof.
  induction p as [a | e | R ev k IH]; intros Hp Hh; simpl; auto.
  intros r. destruct (Hp r) as [Hb Hk]. split; [assumption | now apply IH].
Qed.

Lemma login_gate_true (tr : trace) : login_gate true tr = true.
Proof.
  induction tr as [|e tr IH]; simpl; [reflexivity |].
  now rewrite orb_true_r, IH.
Qed.

Lemma login_gate_app (a : bool) (t1 t2 : trace) :
  login_gate a (t1 ++ t2)
  = login_gate a t1 && login_gate (a || existsb authenticates t1) t2.
Proof.
  revert a; induction t1 as [|e t1 IH]; intros a; simpl.
  - now rewrite orb_false_r.
  - now rewrite IH, andb_assoc, orb_assoc.
Qed.

Lemma login_gate_quiet (a : bool) (tr : trace) :
  existsb lists_blocks tr = false -> login_gate a tr = true.
Proof.
  revert a; induction tr as [|e tr IH]; intros a; simpl; [reflexivity |].
  intros [-> H]%orb_false_iff. simpl. now apply IH.
Qed.

Ltac answer w :=
  match goal with
  | |- context [w ?R ?t ?ev] =>
      let r := fresh "r" in
      destruct (w R t ev) as [r | ?];
      [ try match type of r with
            | bool => destruct r
            | option _ => destruct r
            end
      | ]
  end.

Ltac walk w := repeat (cbn; answer w); cbn.

(** A run of [_selectCodeBlock]: it respects the gate, and when it returns
    the provider was seen authenticated and no [login] failed. *)
Lemma select_run (w : world) (this : Commands) (favorite : bool)
      (tr : trace) :
  let new := news w (_selectCodeBlock this favorite) tr in
  gate_respected new
  /\ match snd (exec w (_selectCodeBlock this favorite) tr) with
     | Returns _ =>
         existsb authenticates new = true /\ existsb login_failed new = false
     | Fails _ => True
     end.
Proof.
  unfold gate_respected, _selectCodeBlock, _loginUser, trimmed.
  walk w; repeat split; auto; discriminate.
Qed.

Ltac no_such_call :=
  repeat (cbn; intros;
          match goal with
          | |- _ /\ _ => split
          | |- never _ (match ?x with _ => _ end) => destruct x
          | |- never _ (bind _ _) => apply never_bind
          | |- never _ (try_catch _ _) => apply never_try_catch
          | |- _ = _ => reflexivity
          | |- True => exact I
          end).

Lemma showError_quiet (this : Commands) (e : thrown) :
  never lists_blocks (_showError this e)
  /\ never login_failed (_showError this e).
Proof. unfold _showError. no_such_call. Qed.

Lemma open_each_quiet (this : Commands) (directory : string)
      (fs : list (string * FileContent)) :
  forall i, never login_failed (open_each this directory i fs)
            /\ never lists_blocks (open_each this directory i fs).
Proof.
  induction fs as [|[name file] fs IH]; intros i; [now split |].
  cbn [open_each]. unfold _openTextDocument.
  split; (apply never_bind; [| intros _; apply never_bind;
                                 [| intros _; apply IH]]);
    destruct i; no_such_call.
Qed.

(** After [_selectCodeBlock], a continuation that neither lists nor logs in
    keeps the gate. *)
Lemma select_then (w : world) (this : Commands) (favorite : bool) {A}
      (F : option StorageBlock -> prog A) (tr : trace) :
  (forall cb, never login_failed (F cb)) ->
  (forall cb, never lists_blocks (F cb)) ->
  gate_respected (news w (bind (_selectCodeBlock this favorite) F) tr).
Proof.
  intros HF HL. rewrite news_bind.
  destruct (select_run w this favorite tr) as [[G1 G2] G3]. cbv zeta in *.
  set (new := news w (_selectCodeBlock this favorite) tr) in *.
  destruct (snd (exec w (_selectCodeBlock this favorite) tr)) as [cb | e].
  - destruct G3 as [Ha Hf]. split.
    + rewrite login_gate_app, G1, Ha. apply login_gate_true.
    + rewrite !existsb_app, Hf, (never_news _ _ w (HF cb)). discriminate.
  - rewrite app_nil_r. now split.
Qed.

(** The [catch] of a handler adds nothing the gate minds. *)
Lemma guarded_keeps_gate (w : world) (this : Commands) (p : prog unit)
      (tr : trace) :
  gate_respected (news w p tr) ->
  gate_respected (news w (try_catch p (_showError this)) tr).
Proof.
  intros [G1 G2]. rewrite news_try_catch.
  destruct (snd (exec w p tr)) as [[] | e]; [now rewrite app_nil_r |].
  destruct (showError_quiet this e) as [Hl Hf].
  split.
  - rewrite login_gate_app, G1. apply login_gate_quiet.
    now apply never_news.
  - rewrite !existsb_app, (never_news _ _ w Hl), (never_news _ _ w Hf),
      !orb_false_r. exact G2.
Qed.

(** C9.  In [_selectCodeBlock], and so in [openCodeBlock] and
    [addToCodeBlock], the provider's [list] is called only after
    [isAuthenticated()] has returned [true] or [login] has returned, and
    not at all in a run where [login] failed; with the provider
    authenticated it is called at once, otherwise after the two prompts and
    the login. *)
Theorem login_gate_respected (this : Commands) (w : world)
        (favorite : bool) :
  gate_respected (fst (run w (_selectCodeBlock this favorite)))
  /\ gate_respected (fst (run w (openCodeBlock this favorite)))
  /\ gate_respected (fst (run w (addToCodeBlock this)))
  /\ calls (fst (run (scripted idle) (_selectCodeBlock gist favorite)))
     = [Called IsAuthenticated; Called (ListBlocks favorite);
        Called (ShowQuickPick [site]);
        Called (GetStorageBlock "https://api/abc123")]
  /\ calls (fst (run (scripted writing) (_selectCodeBlock gist favorite)))
     = [Called IsAuthenticated;
        Called (ShowInputBox "Enter your Gist username" None);
        Called (ShowInputBox "Enter your Gist password." None);
        Called (Login "yes" "yes");
        Called (ListBlocks favorite);
        Called (ShowQuickPick [site]);
        Called (GetStorageBlock "https://api/abc123")].
Proof.
  unfold run. rewrite !exec_news. cbn [app].
  split; [| split; [| split; [| split; reflexivity]]].
  - apply select_run.
  - apply guarded_keeps_gate, select_then; intros [b |]; try now split.
    + unfold open_selected, _createTmpDir.
      apply never_bind; [no_such_call |]. intros d.
      apply never_bind; [no_such_call |]. intros ed.
      apply never_bind; [destruct ed; no_such_call |]. intros _.
      apply open_each_quiet.
    + unfold open_selected, _createTmpDir.
      apply never_bind; [no_such_call |]. intros d.
      apply never_bind; [no_such_call |]. intros ed.
      apply never_bind; [destruct ed; no_such_call |]. intros _.
      apply open_each_quiet.
  - apply guarded_keeps_gate. cbn [bind call news].
    destruct (w _ [] ActiveTextEditor) as [[editor |] | e]; cbn [bind news].
    + assert (G : gate_respected
                    (news w (bind (_selectCodeBlock this false)
                      (fun codeBlock =>
                         match codeBlock with
                         | Some b =>
                             match free_fileName (files b)
                                     (editor_fileName this editor) with
                             | Returns fileName =>
                                 call (EditFile (id b) fileName
                                                (editor_text editor)) ;;
                                 fire (_notify this "File Added To Block")
                             | Fails e => Throw e
                             end
                         | None => Ret tt
                         end))
                      ([] ++ [Entry ActiveTextEditor
                                    (Returns (Some editor))]))).
      { apply select_then; intros [b |]; no_such_call. }
      destruct G as [G1 G2]. split; cbn; assumption.
    + now split.
    + now split.
Qed.

(** ** Adding a file *)

(** [_selectCodeBlock] changes nothing at the provider. *)
Lemma select_changes_nothing (this : Commands) (w : world) (favorite : bool)
      (tr : trace) :
  existsb (strays None) (news w (_selectCodeBlock this favorite) tr) = false.
Proof.
  apply never_news. unfold _selectCodeBlock, _loginUser, trimmed.
  no_such_call.
Qed.

(** [addToCodeBlock], once an editor is focused and a block has been picked:
    nothing has changed at the provider so far; when the loop leaves with a
    name, the provider is asked to store the editor's text in the block
    under that name, and the user is notified, or the provider's error
    reported; when the loop throws, the error is reported and nothing is
    stored.  The handler returns. *)
Lemma addToCodeBlock_stores (this : Commands) (w : world)
      (editor : vscode.TextEditor) (tr1 : trace) (b : StorageBlock) :
  w _ [] ActiveTextEditor = Returns (Some editor) ->
  exec w (_selectCodeBlock this false)
       [Entry ActiveTextEditor (Returns (Some editor))]
  = (tr1, Returns (Some b)) ->
  existsb (strays None) tr1 = false
  /\ calls (fst (run w (addToCodeBlock this)))
     = calls tr1
       ++ match free_fileName (files b) (editor_fileName this editor) with
          | Returns n =>
              let store := EditFile (id b) n (editor_text editor) in
              Called store
              :: match w _ tr1 store with
                 | Returns _ => [Called (_notify this "File Added To Block")]
                 | Fails e =>
                     [Called (ConsoleError e); Called (error_notice this e)]
                 end
          | Fails e => [Called (ConsoleError e); Called (error_notice this e)]
          end
  /\ snd (run w (addToCodeBlock this)) = Returns tt.
Proof.
  intros H1 H2. split.
  - pose proof (exec_news w (_selectCodeBlock this false)
                  [Entry ActiveTextEditor (Returns (Some editor))]) as E.
    rewrite H2 in E. cbn [fst] in E.
    rewrite E, existsb_app, select_changes_nothing. reflexivity.
  - unfold run, addToCodeBlock.
    rewrite exec_try_catch, exec_bind, exec_call, H1. cbn [app].
    rewrite exec_bind, H2. cbn beta iota.
    destruct (free_fileName _ _) as [n | e0].
    + rewrite exec_bind, exec_call.
      destruct (w unit tr1 _) as [[] | e].
      * rewrite exec_fire. cbn [fst snd]. unfold calls.
        rewrite <- ?app_assoc, map_app. split; reflexivity.
      * cbn beta iota. unfold calls.
        destruct e; cbn; rewrite <- ?app_assoc, map_app; split; reflexivity.
    + cbn beta iota. unfold calls.
      destruct e0; cbn; rewrite <- ?app_assoc, map_app; split; reflexivity.
Qed.

(** C4.  The name under which [addToCodeBlock] stores a file.  In a block
    with no file named [hasOwnProperty] it is the candidate itself when the
    block has no file of that name, and otherwise the candidate with the
    least [i >= 1] for which the numbered name is free, the number standing
    before the last dot, or at the end when there is no dot; the name is
    never one of the block's, the file is stored under it by the only call
    of the run that changes anything at the provider, and the loop needs no
    more rounds than the block has files, plus one.  In a block that has a
    file named [hasOwnProperty] the loop's test throws: the error is
    reported and nothing is stored, as for [notes.txt] added to the block
    [shadowing]. *)
Theorem collision_resolution (fs : list (string * FileContent))
        (name : string) :
  (owns fs "hasOwnProperty" = false ->
   (owns fs name = false -> free_fileName fs name = Returns name)
   /\ (owns fs name = true ->
       exists i, 1 <= i
                 /\ free_fileName fs name = Returns (numbered name i)
                 /\ owns fs (numbered name i) = false
                 /\ forall j, 1 <= j < i ->
                              owns fs (numbered name j) = true)
   /\ exists n, free_fileName fs name = Returns n /\ owns fs n = false)
  /\ (owns fs "hasOwnProperty" = true ->
      free_fileName fs name = Fails not_a_function)
  /\ (forall fuel, S (List.length fs) <= fuel ->
                   rename_loop fuel fs name name 1 = free_fileName fs name)
  /\ (forall base ext i,
        lacks "." ext = true ->
        numbered (base ++ "." ++ ext) i
        = (base ++ Str.of_nat i ++ "." ++ ext)%string)
  /\ (forall i, lacks "." name = true ->
                numbered name i = (name ++ Str.of_nat i)%string)
  /\ (forall f g, free_fileName [("a.txt", f); ("a1.txt", g)] "a.txt"
                  = Returns "a2.txt")
  /\ (forall f, free_fileName [("readme", f)] "readme" = Returns "readme1")
  /\ (forall (this : Commands) (w : world) (editor : vscode.TextEditor)
             (tr1 : trace) (b : StorageBlock),
        w _ [] ActiveTextEditor = Returns (Some editor) ->
        exec w (_selectCodeBlock this false)
             [Entry ActiveTextEditor (Returns (Some editor))]
        = (tr1, Returns (Some b)) ->
        editor_fileName this editor = name ->
        files b = fs ->
        existsb (strays None) tr1 = false
        /\ calls (fst (run w (addToCodeBlock this)))
           = calls tr1
             ++ match free_fileName fs name with
                | Returns n =>
                    let store := EditFile (id b) n (editor_text editor) in
                    Called store
                    :: match w _ tr1 store with
                       | Returns _ =>
                           [Called (_notify this "File Added To Block")]
                       | Fails e =>
                           [Called (ConsoleError e);
                            Called (error_notice this e)]
                       end
                | Fails e =>
                    [Called (ConsoleError e); Called (error_notice this e)]
                end
        /\ snd (run w (addToCodeBlock this)) = Returns tt)
  /\ owns (files shadowing) "notes.txt" = true
  /\ free_fileName (files shadowing) "notes.txt" = Fails not_a_function
  /\ calls (fst (run (scripted (adding shadowing)) (addToCodeBlock gist)))
     = [Called ActiveTextEditor; Called IsAuthenticated;
        Called (ListBlocks false); Called (ShowQuickPick [shadowing]);
        Called (GetStorageBlock "https://api/def456");
        Called (ConsoleError not_a_function);
        Called (error_notice gist not_a_function)]
  /\ calls (fst (run (scripted (adding site)) (addToCodeBlock gist)))
     = [Called ActiveTextEditor; Called IsAuthenticated;
        Called (ListBlocks false); Called (ShowQuickPick [site]);
        Called (GetStorageBlock "https://api/abc123");
        Called (EditFile "abc123" "notes.txt" "hello world");
        Called (ShowInformationMessage
                  "GIST MESSAGE: File Added To Block [Gist]")].
Proof.
  split; [apply free_fileName_spec |].
  split; [intros H; now apply rename_loop_hidden |].
  split; [intros fuel; apply rename_loop_fuel |].
  split; [intros base ext i; apply numbered_with_dot |].
  split; [intros i; apply numbered_without_dot |].
  split; [reflexivity |].
  split; [reflexivity |].
  split; [| repeat split].
  intros this w editor tr1 b H1 H2 <- <-.
  now apply addToCodeBlock_stores.
Qed.

(** ** Deleting a block *)

(** The sweep issues one [closeActiveEditor] per visible editor bound to the
    block, and each of them names no editor. *)
Lemma close_each_calls (this : Commands) (w : world) (blockId : string)
      (editors : list vscode.TextEditor) :
  forall tr,
    calls (news w (close_each this blockId editors) tr)
    = repeat (Called (ExecuteCommand "workbench.action.closeActiveEditor"))
             (List.length (filter (bound_to (os this) blockId) editors))
    /\ snd (exec w (close_each this blockId editors) tr) = Returns tt.
Proof.
  induction editors as [|e editors IH]; intros tr; [now split |].
  cbn [close_each filter]. unfold bound_to at 1.
  rewrite news_bind, exec_bind.
  destruct (_getCodeFileDetails (os this)
              (vscode.fileName (vscode.document e))) as [d |].
  - destruct (String.eqb (storageBlockId d) blockId).
    + rewrite exec_fire. cbn [fire news snd fst app].
      destruct (IH (tr ++ [Entry (ExecuteCommand
                                    "workbench.action.closeActiveEditor")
                                 (w unit tr (ExecuteCommand
                                    "workbench.action.closeActiveEditor"))]))
        as [E1 E2].
      split; [| exact E2]. unfold calls in *. cbn [map List.length repeat].
      now rewrite E1.
    + cbn [news exec snd app]. rewrite app_nil_r. apply IH.
  - cbn [news exec snd app]. rewrite app_nil_r. apply IH.
Qed.

(** C5.  The sweep on three visible editors, [editor_a] and [editor_b] of
    block [abc123] and [editor_c] of another block focused between them:
    the block is deleted and the active editor is closed twice.  On a host
    where focus passes to the editor focused before, that closes [editor_a]
    and [editor_c] and leaves [editor_b], which is bound to the deleted
    block, open. *)
Theorem delete_sweep_closes_the_focused :
  bound_to posix "abc123" editor_a = true
  /\ bound_to posix "abc123" editor_b = true
  /\ bound_to posix "abc123" editor_c = false
  /\ run (scripted side_by_side) (deleteCodeBlock gist)
     = ([Entry ActiveTextEditor (Returns (Some editor_a));
         Entry (DeleteStorageBlock "abc123") (Returns tt);
         Entry VisibleTextEditors (Returns [editor_a; editor_c; editor_b]);
         Entry (ExecuteCommand "workbench.action.closeActiveEditor")
               (Returns tt);
         Entry (ExecuteCommand "workbench.action.closeActiveEditor")
               (Returns tt);
         Entry (ShowInformationMessage "GIST MESSAGE: Block Deleted [Gist]")
               (Returns tt)],
        Returns tt)
  /\ host_after [editor_a; editor_c; editor_b]
                (fst (run (scripted side_by_side) (deleteCodeBlock gist)))
     = [editor_b].
Proof. repeat split. Qed.

(** ** Opening a block *)

Lemma all_returned_app (t1 t2 : trace) :
  all_returned (t1 ++ t2) = all_returned t1 && all_returned t2.
Proof. apply forallb_app. Qed.

Ltac open_step w :=
  cbn [open_each _openTextDocument bind call news exec snd fst
       Nat.ltb Nat.leb];
  try match goal with
      | |- context [w ?R ?t ?ev] =>
          let u := fresh "u" in
          destruct (w R t ev) as [u | ?];
          [ try match type of u with unit => destruct u end | ]
      end.

(** A run of the loop of [openCodeBlock]: either every call returns, and
    the calls are those of [opening] for the documents the host opened, or
    a call fails and the loop throws. *)
Lemma open_each_run (this : Commands) (w : world) (directory : string)
      (fs : list (string * FileContent)) :
  forall i tr,
    (snd (exec w (open_each this directory i fs) tr) = Returns tt
     /\ exists docs,
         List.length docs = List.length fs
         /\ news w (open_each this directory i fs) tr
            = opening this directory (i =? 0)%nat (combine fs docs))
    \/ (all_returned (news w (open_each this directory i fs) tr) = false).
Proof.
  induction fs as [|[name file] fs IH]; intros i tr.
  - left. split; [reflexivity |]. now exists [].
  - assert (tail : forall doc tr',
      let here :=
        [Entry (WriteFileSync (path_join this directory name) (content file))
               (Returns tt);
         Entry (OpenTextDocument (path_join this directory name))
               (Returns doc);
         Entry (ShowTextDocument doc) (Returns tt)] in
      (snd (exec w (open_each this directory (S i) fs) tr') = Returns tt
       /\ exists docs,
           List.length docs = S (List.length fs)
           /\ here ++ news w (open_each this directory (S i) fs) tr'
              = here ++ opening this directory false
                                (combine fs (tl docs))
           /\ hd_error docs = Some doc)
      \/ all_returned
           (here ++ news w (open_each this directory (S i) fs) tr') = false).
    { intros doc tr' here.
      destruct (IH (S i) tr') as [[E (docs & L & N)] | F].
      - left. split; [exact E |]. exists (doc :: docs).
        cbn [tl hd_error List.length]. now rewrite L, N.
      - right. rewrite all_returned_app, F. apply andb_false_r. }
    destruct i as [|i].
    + open_step w; [| now right].
      open_step w; [| now right].
      open_step w; [| now right].
      cbn [bind].
      match goal with
      | |- context [exec w (open_each _ _ _ _) ?t] =>
          destruct (tail u t) as [[E (docs & L & N & D)] | F]; [left | right]
      end.
      * split; [exact E |]. exists docs. split; [exact L |].
        destruct docs as [|d docs]; [discriminate |].
        injection D as ->. cbn in N |- *. now injection N as ->.
      * exact F.
    + open_step w; [| now right].
      open_step w; [| now right].
      open_step w; [| now right].
      open_step w; [| now right].
      open_step w; [| now right].
      cbn [bind].
      match goal with
      | |- context [exec w (open_each _ _ _ _) ?t] =>
          destruct (tail u t) as [[E (docs & L & N & D)] | F]; [left | right]
      end.
      * split; [exact E |]. exists docs. split; [exact L |].
        destruct docs as [|d docs]; [discriminate |].
        injection D as ->. cbn in N |- *. now injection N as ->.
      * cbn in F |- *. exact F.
Qed.

Lemma opened_opening (this : Commands) (directory : string)
      (fs : list (string * FileContent)) :
  forall first docs,
    List.length docs = List.length fs ->
    opened (opening this directory first (combine fs docs))
    = map (fun f => path_join this directory (fst f)) fs.
Proof.
  induction fs as [|[name file] fs IH]; intros first [|doc docs] L;
    try discriminate; [reflexivity |].
  injection L as L. cbn [combine opening map fst].
  unfold opened in *. rewrite flat_map_app.
  destruct first; cbn; now rewrite IH.
Qed.

(** The calls of [openCodeBlock] when a block is selected: those of the
    selection, those of [open_selected], and the error report when that
    throws. *)
Lemma open_run (this : Commands) (w : world) (favorite : bool)
      (tr1 : trace) (b : StorageBlock) :
  exec w (_selectCodeBlock this favorite) [] = (tr1, Returns (Some b)) ->
  fst (run w (openCodeBlock this favorite))
  = tr1 ++ news w (open_selected this b) tr1
        ++ match snd (exec w (open_selected this b) tr1) with
           | Returns _ => []
           | Fails e =>
               news w (_showError this e)
                    (tr1 ++ news w (open_selected this b) tr1)
           end.
Proof.
  intros Hsel.
  assert (N1 : news w (_selectCodeBlock this favorite) [] = tr1).
  { pose proof (exec_news w (_selectCodeBlock this favorite) []) as X.
    now rewrite Hsel in X. }
  unfold run, openCodeBlock.
  rewrite exec_news, news_try_catch, news_bind, exec_bind, Hsel, N1.
  cbn [app snd]. now rewrite <- app_assoc.
Qed.

(** A run of [open_selected]: either every call returns, and after the
    temporary directory is made and the active editor read (the other
    editors closed when there is one) the files are opened as [opening]
    says, or a call fails. *)
Lemma open_selected_run (this : Commands) (w : world) (b : StorageBlock)
      (tr : trace) (dir : string) :
  w _ tr (TmpDirSync (tmp_prefix (id b))) = Returns dir ->
  (snd (exec w (open_selected this b) tr) = Returns tt
   /\ exists focused docs,
       List.length docs = List.length (files b)
       /\ news w (open_selected this b) tr
          = Entry (TmpDirSync (tmp_prefix (id b))) (Returns dir)
            :: Entry ActiveTextEditor (Returns focused)
            :: match focused with
               | Some _ =>
                   [Entry (ExecuteCommand
                             "workbench.action.closeOtherEditors")
                          (Returns tt)]
               | None => []
               end
            ++ opening this dir true (combine (files b) docs))
  \/ all_returned (news w (open_selected this b) tr) = false.
Proof.
  intros Htmp. unfold open_selected, _createTmpDir.
  cbn [bind call news exec snd]. rewrite Htmp.
  cbn [bind call news exec snd].
  destruct (w _ _ ActiveTextEditor) as [[editor |] | e]; [| | now right].
  - cbn [bind call news exec snd].
    destruct (w unit _ _) as [[] | e]; [| now right].
    cbn [bind].
    match goal with
    | |- context [exec w (open_each _ _ _ _) ?t] =>
        destruct (open_each_run this w dir (files b) 0 t)
          as [[E (docs & L & N)] | F]; [left | right]
    end.
    + split; [exact E |]. exists (Some editor), docs.
      split; [exact L |]. now rewrite N.
    + cbn. exact F.
  - cbn [bind].
    match goal with
    | |- context [exec w (open_each _ _ _ _) ?t] =>
        destruct (open_each_run this w dir (files b) 0 t)
          as [[E (docs & L & N)] | F]; [left | right]
    end.
    + split; [exact E |]. exists None, docs.
      split; [exact L |]. now rewrite N.
    + cbn. exact F.
Qed.

Lemma opened_app (t1 t2 : trace) : opened (t1 ++ t2) = opened t1 ++ opened t2.
Proof. apply flat_map_app. Qed.

(** C6, amended.  An open in which a block was selected and every call
    returned: the files are written into the one directory [tmp.dirSync]
    made and opened in the order of the block's file mapping, the first in
    the view at hand and each further one after a move to the first group
    and a split, one document per file.  Every opened path decodes to the
    block id and the file's name when the id has no underscore, the
    directory is named as [tmp.dirSync] names it (on one line up to the
    prefix, then a random part with no separator that does not bring
    [vscode_gist_] back), and each file name is on one line, matches the
    pattern nowhere and is joined to the directory as it is. *)
Theorem open_block (this : Commands) (w : world) (favorite : bool)
        (tr1 : trace) (b : StorageBlock) (root junk : string) :
  let pf := os this in
  let dir := (root ++ tmp_prefix (id b) ++ junk)%string in
  exec w (_selectCodeBlock this favorite) [] = (tr1, Returns (Some b)) ->
  w _ tr1 (TmpDirSync (tmp_prefix (id b))) = Returns dir ->
  all_returned (fst (run w (openCodeBlock this favorite))) = true ->
  single_line root = true ->
  lacks "_" (id b) = true ->
  lacks (path_sep pf) junk = true ->
  Str.occurs tag (id b ++ "_" ++ junk) = false ->
  (forall name file,
      In (name, file) (files b) ->
      single_line name = true
      /\ _getCodeFileDetails pf name = None
      /\ path_join this dir name = plain_join pf dir name) ->
  exists focused docs,
    List.length docs = List.length (files b)
    /\ fst (run w (openCodeBlock this favorite))
       = tr1
         ++ Entry (TmpDirSync (tmp_prefix (id b))) (Returns dir)
         :: Entry ActiveTextEditor (Returns focused)
         :: match focused with
            | Some _ =>
                [Entry (ExecuteCommand "workbench.action.closeOtherEditors")
                       (Returns tt)]
            | None => []
            end
         ++ opening this dir true (combine (files b) docs)
    /\ opened (fst (run w (openCodeBlock this favorite)))
       = opened tr1 ++ map (fun f => path_join this dir (fst f)) (files b)
    /\ forall name file,
        In (name, file) (files b) ->
        _getCodeFileDetails pf (path_join this dir name)
        = Some {| storageBlockId := id b; fileName := name |}.
Proof.
  intros pf dir Hsel Htmp Hok Hroot Hid Hjunk Hocc Hfiles.
  rewrite (open_run _ _ _ _ _ Hsel) in *.
  destruct (open_selected_run this w b tr1 dir Htmp)
    as [[E (focused & docs & L & N)] | F].
  - exists focused, docs. rewrite E, N, app_nil_r.
    split; [exact L |]. split; [reflexivity |]. split.
    + rewrite opened_app. f_equal.
      change (opened (?a :: ?c :: ?l)) with (opened l).
      rewrite opened_app, (opened_opening _ _ _ _ _ L).
      now destruct focused.
    + intros name file Hin.
      destruct (Hfiles name file Hin) as (Hline & Hnone & ->).
      unfold plain_join, dir. rewrite !app_assoc_s.
      rewrite decode_segment by assumption.
      unfold first_line. now rewrite take_span_all.
  - rewrite !all_returned_app, F, andb_false_r in Hok. discriminate.
Qed.

Lemma open_block_witness :
  opened (fst (run (scripted idle) (openCodeBlock gist false)))
  = ["/tmp/vscode_gist_abc123_4711xYz/index.js";
     "/tmp/vscode_gist_abc123_4711xYz/style.css"]
  /\ _getCodeFileDetails posix "/tmp/vscode_gist_abc123_4711xYz/style.css"
     = Some {| storageBlockId := "abc123"; fileName := "style.css" |}.
Proof.
  destruct (open_block gist (scripted idle) false
              (fst (run (scripted idle) (_selectCodeBlock gist false)))
              site "/tmp/" "4711xYz")
    as (focused & docs & L & T & O & D); try reflexivity.
  - intros name file [E | [E | []]]; injection E as <- <-;
      repeat split; reflexivity.
  - split; [exact O |].
    exact (D "style.css" {| content := "p {}" |} (or_intror (or_introl eq_refl))).
Defined.

(** C6 as stated fails on a block whose id has an underscore: the open
    succeeds, and the one file's editor is on a path that decodes to the id
    cut at the underscore.  It fails as well on a file name of two lines,
    which decodes cut at the line break. *)
Lemma open_block_counterexample :
  (all_returned (fst (run (scripted (holding underscored))
                          (openCodeBlock gist false))) = true
   /\ opened (fst (run (scripted (holding underscored))
                       (openCodeBlock gist false)))
      = ["/tmp/vscode_gist_a_b_4711xYz/f.txt"]
   /\ _getCodeFileDetails posix "/tmp/vscode_gist_a_b_4711xYz/f.txt"
      = Some {| storageBlockId := "a"; fileName := "f.txt" |}
   /\ id underscored = "a_b")
  /\
  (all_returned (fst (run (scripted (holding two_lined))
                          (openCodeBlock gist false))) = true
   /\ opened (fst (run (scripted (holding two_lined))
                       (openCodeBlock gist false)))
      = [("/tmp/vscode_gist_abc_4711xYz/"
            ++ String "a" (String "010" "b"))%string]
   /\ _getCodeFileDetails posix
        ("/tmp/vscode_gist_abc_4711xYz/" ++ String "a" (String "010" "b"))
      = Some {| storageBlockId := "abc"; fileName := "a" |}).
Proof. repeat split. Qed.

(** ** The sweep in general, and the codec on the spec's examples *)

(** Whatever the world, once the active document decodes, the block is
    deleted and the visible editors are read, [deleteCodeBlock] goes on
    with one [closeActiveEditor] per editor bound to the block and the
    notification. *)
Lemma delete_sweep_calls (this : Commands) (w : world)
      (editor : vscode.TextEditor) (details : CodeFileDetails)
      (editors : list vscode.TextEditor) :
  let e1 := Entry ActiveTextEditor (Returns (Some editor)) in
  let e2 := Entry (DeleteStorageBlock (storageBlockId details))
                  (Returns tt) in
  w _ [] ActiveTextEditor = Returns (Some editor) ->
  _getCodeFileDetails (os this) (vscode.fileName (vscode.document editor))
  = Some details ->
  w _ [e1] (DeleteStorageBlock (storageBlockId details)) = Returns tt ->
  w _ [e1; e2] VisibleTextEditors = Returns editors ->
  calls (fst (run w (deleteCodeBlock this)))
  = [Called ActiveTextEditor;
     Called (DeleteStorageBlock (storageBlockId details));
     Called VisibleTextEditors]
    ++ repeat (Called (ExecuteCommand "workbench.action.closeActiveEditor"))
              (List.length
                 (filter (bound_to (os this) (storageBlockId details))
                         editors))
    ++ [Called (_notify this "Block Deleted")].
Proof.
  intros e1 e2 H1 Hd H2 H3.
  assert (E : exec w (_getCurrentDocument this) [] = ([e1], Returns details)).
  { unfold _getCurrentDocument. rewrite exec_bind, exec_call, H1.
    cbn beta iota. now rewrite Hd. }
  unfold run, deleteCodeBlock.
  rewrite exec_try_catch, exec_bind, E. cbn beta iota.
  rewrite exec_bind, exec_call, H2. cbn [app]. fold e2.
  rewrite exec_bind, exec_call, H3. cbn [app].
  rewrite exec_bind.
  set (tr3 := [e1; e2; Entry VisibleTextEditors (Returns editors)]).
  destruct (close_each_calls this w (storageBlockId details) editors tr3)
    as [C1 C2].
  pose proof (exec_news w (close_each this (storageBlockId details) editors)
                        tr3) as N.
  destruct (exec w (close_each this (storageBlockId details) editors) tr3)
    as [tr' out].
  cbn [fst snd] in *. subst out tr'. rewrite exec_fire. cbn [fst].
  unfold calls in *. rewrite !map_app, C1. reflexivity.
Qed.

Example decode_working_copy :
  _getCodeFileDetails posix "/tmp/vscode_gist_abc123_4711xYz/x.txt"
  = Some {| storageBlockId := "abc123"; fileName := "x.txt" |}.
Proof. reflexivity. Qed.

Example decode_unrelated :
  _getCodeFileDetails posix "/home/u/notes.txt" = None.
Proof. reflexivity. Qed.

Example decode_nested_on_windows :
  _getCodeFileDetails win32 "C:\tmp\vscode_gist_ab_123\sub\g.txt"
  = Some {| storageBlockId := "ab"; fileName := "sub\g.txt" |}.
Proof. reflexivity. Qed.

(* ================================================================= *)
(** * Further properties *)

(** ** What the decoder accepts *)

Lemma prefix_split (a s : string) :
  prefix a s = true -> s = (a ++ Str.drop (String.length a) s)%string.
Proof.
  revert s; induction a as [|x a IH]; intros s H.
  - now rewrite drop_0.
  - destruct s as [|y s]; simpl in H; [discriminate |].
    destruct (ascii_dec x y) as [<- |]; [| discriminate].
    simpl. f_equal. now apply IH.
Qed.

Lemma take_within_span (p : ascii -> bool) (s : string) (n : nat) :
  n <= Str.span p s -> Str.forallb p (Str.take n s) = true.
Proof.
  revert s; induction n as [|n IH]; intros s H; [now destruct s |].
  destruct s as [|x s]; simpl in *; [reflexivity |].
  destruct (p x); [| lia]. simpl. apply IH. lia.
Qed.

(** A path without the text [vscode_gist_] is no working copy's. *)
Theorem decode_needs_tag (pf : platform) (s : string) :
  Str.occurs tag s = false -> _getCodeFileDetails pf s = None.
Proof.
  intros Hocc. unfold _getCodeFileDetails.
  destruct (Regex.exec (regexp pf) s) as [l |] eqn:E; [exfalso | reflexivity].
  apply exec_some in E as (n & E).
  unfold regexp in E. cbn [Regex.match_here] in E.
  apply first_down_some in E as (k & _ & E).
  rewrite drop_drop in E.
  destruct (prefix "vscode_gist_" (Str.drop (n + k) s)) eqn:F;
    [| discriminate].
  apply (occurs_drop tag) in F. congruence.
Qed.

Lemma decode_needs_tag_witness :
  _getCodeFileDetails win32 "C:\Users\u\notes.txt" = None.
Proof.
  apply (decode_needs_tag win32 "C:\Users\u\notes.txt"). reflexivity.
Defined.

(** What a successful decode says of the path: it runs through a directory
    named [vscode_gist_], the block id, an underscore and a rest, the id
    without underscore and the rest without separator, and the file name is
    the first line of what follows the next separator. *)
Theorem decode_shape (pf : platform) (s : string) (d : CodeFileDetails) :
  _getCodeFileDetails pf s = Some d ->
  exists pre junk rest,
    s = (pre ++ tmp_prefix (storageBlockId d) ++ junk
             ++ String (path_sep pf) rest)%string
    /\ lacks "_" (storageBlockId d) = true
    /\ lacks (path_sep pf) junk = true
    /\ fileName d = first_line rest.
Proof.
  unfold _getCodeFileDetails. intros H.
  destruct (Regex.exec (regexp pf) s) as [[|a [|b [|c l]]] |] eqn:E;
    try discriminate.
  injection H as <-. cbn [storageBlockId fileName].
  apply exec_some in E as (n & E).
  unfold regexp in E. cbn [Regex.match_here] in E.
  apply first_down_some in E as (k0 & _ & E). rewrite drop_drop in E.
  set (y := Str.drop (n + k0) s) in *.
  destruct (prefix "vscode_gist_" y) eqn:Py; [| discriminate].
  apply prefix_split in Py. cbn [String.length] in Py, E.
  set (z := Str.drop 12 y) in *.
  apply first_down_some in E as (k1 & L1 & E).
  destruct (prefix "_" (Str.drop k1 z)) eqn:Pu; [| discriminate].
  apply prefix_split in Pu. cbn [String.length] in Pu, E.
  set (z2 := Str.drop 1 (Str.drop k1 z)) in *.
  destruct (Regex.first_down _ _) as [l1 |] eqn:E2 in E; [| discriminate].
  cbn [option_map] in E. injection E as <- ->.
  apply first_down_some in E2 as (k2 & L2 & E2).
  destruct (prefix (String (path_sep pf) "") (Str.drop k2 z2)) eqn:Ps;
    [| discriminate].
  apply prefix_split in Ps. cbn [String.length] in Ps, E2.
  set (u := Str.drop 1 (Str.drop k2 z2)) in *.
  rewrite (first_down_hit _ _ [Str.take (Str.span (Regex.accepts Regex.Dot) u) u])
    in E2 by reflexivity.
  injection E2 as <-.
  exists (Str.take (n + k0) s), (Str.take k2 z2), u.
  split; [| split; [| split]].
  - rewrite <- (take_drop (n + k0) s) at 1. f_equal. fold y.
    rewrite Py at 1. unfold tmp_prefix, tag. rewrite !app_assoc_s. f_equal.
    rewrite <- (take_drop k1 z) at 1. f_equal.
    rewrite Pu at 1. cbn [append]. f_equal. fold z2.
    rewrite <- (take_drop k2 z2) at 1. f_equal.
    rewrite Ps at 1. reflexivity.
  - now apply take_within_span.
  - now apply take_within_span.
  - reflexivity.
Qed.

Lemma decode_shape_witness :
  exists pre junk rest,
    "/tmp/vscode_gist_abc123_4711xYz/x.txt"
    = (pre ++ tmp_prefix "abc123" ++ junk ++ String "/" rest)%string
    /\ lacks "_" "abc123" = true
    /\ lacks "/" junk = true
    /\ "x.txt" = first_line rest.
Proof.
  exact (decode_shape posix "/tmp/vscode_gist_abc123_4711xYz/x.txt"
           {| storageBlockId := "abc123"; fileName := "x.txt" |} eq_refl).
Defined.

(** An id with an underscore is cut at it: the directory made for the id
    [a_b] decodes to [a], when [a] has no underscore, [b] and the random
    part have no separator and [vscode_gist_] does not come back. *)
Theorem decode_cuts_id (pf : platform) (root a b junk name : string) :
  single_line root = true ->
  lacks "_" a = true ->
  lacks (path_sep pf) b = true ->
  lacks (path_sep pf) junk = true ->
  Str.occurs tag (a ++ "_" ++ b ++ "_" ++ junk) = false ->
  single_line name = true ->
  _getCodeFileDetails pf name = None ->
  _getCodeFileDetails pf
    (plain_join pf (root ++ tmp_prefix (a ++ "_" ++ b) ++ junk) name)
  = Some {| storageBlockId := a; fileName := name |}.
Proof.
  intros Hroot Ha Hb Hjunk Hocc Hline Hname.
  replace (plain_join pf (root ++ tmp_prefix (a ++ "_" ++ b) ++ junk) name)
    with (root ++ tmp_prefix a ++ (b ++ "_" ++ junk)
               ++ String (path_sep pf) name)%string
    by (unfold plain_join, tmp_prefix; now rewrite !app_assoc_s).
  rewrite decode_segment; try assumption.
  - unfold first_line. now rewrite take_span_all.
  - unfold lacks in *. rewrite forallb_app_s, Hb.
    cbn [append Str.forallb]. rewrite Hjunk.
    destruct pf; reflexivity.
Qed.

Lemma decode_cuts_id_witness :
  _getCodeFileDetails posix
    (plain_join posix ("/tmp/" ++ tmp_prefix "a_b" ++ "4711xYz") "f.txt")
  = Some {| storageBlockId := "a"; fileName := "f.txt" |}.
Proof.
  apply (decode_cuts_id posix "/tmp/" "a" "b" "4711xYz" "f.txt");
    reflexivity.
Defined.

(** ** More on the collision loop *)

Lemma of_nat_not_empty (i : nat) : Str.of_nat i <> "".
Proof.
  unfold Str.of_nat. intros H.
  apply (f_equal NilZero.uint_of_string) in H.
  rewrite NilZero.usu in H by apply to_uint_not_nil. discriminate.
Qed.

Lemma numbered_differs (name : string) (i : nat) : numbered name i <> name.
Proof.
  unfold numbered. intros H.
  set (p := match Str.lastIndexOf "." name with
            | Some p => p
            | None => String.length name
            end) in *.
  rewrite <- (take_drop p name) in H at 3.
  apply app_inv_head_s in H.
  change (Str.drop p name) with ("" ++ Str.drop p name)%string in H at 2.
  apply app_inv_tail_s in H. now apply of_nat_not_empty in H.
Qed.

(** In a block whose files leave the inherited method alone: when the
    candidate is taken, the number the loop ends on is at most the number of
    files of the block, since the candidate itself holds one of the keys. *)
Theorem collision_number_bound (fs : list (string * FileContent))
        (name : string) :
  owns fs "hasOwnProperty" = false ->
  owns fs name = true ->
  exists i, 1 <= i <= List.length fs
            /\ free_fileName fs name = Returns (numbered name i).
Proof.
  intros P Hhas.
  assert (Hfree : exists j, 1 <= j < 1 + List.length fs
                            /\ owns fs (numbered name j) = false).
  { destruct (refused_or_all (fun j => owns fs (numbered name j))
                             1 (List.length fs))
      as [H | Hall]; [exact H | exfalso].
    assert (Hincl : incl (name :: map (numbered name)
                                      (seq 1 (List.length fs)))
                         (map fst fs)).
    { intros x [<- | (j & <- & Hj%in_seq)%in_map_iff].
      - now apply owns_In.
      - apply owns_In, Hall. lia. }
    apply NoDup_incl_length in Hincl.
    - cbn [List.length] in Hincl.
      rewrite !length_map, length_seq in Hincl. lia.
    - constructor.
      + intros (j & E & _)%in_map_iff. now apply numbered_differs in E.
      + apply Injective_map_NoDup; [| apply seq_NoDup].
        intros i j. apply numbered_inj. }
  destruct Hfree as (j & Hj & Fj).
  destruct (rename_loop_spec fs name P (S (List.length fs)) 1 name Hhas)
    as (i & Hi & E & F & M).
  { exists j. split; [lia | assumption]. }
  exists i. split; [| exact E].
  destruct (Nat.le_gt_cases i j) as [Hle | Hgt]; [lia |].
  rewrite M in Fj by lia. discriminate.
Qed.

Lemma collision_number_bound_witness :
  exists i, 1 <= i <= 2
            /\ free_fileName [("a.txt", {| content := "" |});
                              ("a1.txt", {| content := "" |})] "a.txt"
               = Returns (numbered "a.txt" i).
Proof.
  exact (collision_number_bound
           [("a.txt", {| content := "" |}); ("a1.txt", {| content := "" |})]
           "a.txt" eq_refl eq_refl).
Defined.

(** In a block whose files leave the inherited method alone, the loop ends
    on a name that is settled: taken as candidate it comes back unchanged.
    Once it is a file of the block, the same candidate gets another name,
    free in the block as it was, so two additions in a row never collide;
    unless the name is [hasOwnProperty] itself, after which every addition
    to the block throws. *)
Theorem collision_names_settle (fs : list (string * FileContent))
        (name : string) (file : FileContent) :
  owns fs "hasOwnProperty" = false ->
  exists n,
    free_fileName fs name = Returns n
    /\ free_fileName fs n = Returns n
    /\ (n <> "hasOwnProperty" ->
        exists m, free_fileName ((n, file) :: fs) name = Returns m
                  /\ m <> n /\ owns fs m = false)
    /\ (n = "hasOwnProperty" ->
        forall candidate,
          free_fileName ((n, file) :: fs) candidate = Fails not_a_function).
Proof.
  intros P.
  destruct (free_fileName_spec fs name P) as (_ & _ & n & E & F).
  exists n. split; [exact E |].
  split; [now apply rename_loop_free |].
  split.
  - intros Hn.
    assert (P' : owns ((n, file) :: fs) "hasOwnProperty" = false).
    { cbn [owns existsb fst]. fold (owns fs "hasOwnProperty").
      rewrite P, orb_false_r. now apply String.eqb_neq. }
    destruct (free_fileName_spec ((n, file) :: fs) name P')
      as (_ & _ & m & E' & F').
    cbn [owns existsb fst] in F'. fold (owns fs m) in F'.
    apply orb_false_iff in F' as [Fa Fb].
    exists m. split; [exact E' |]. split; [| exact Fb].
    intros ->. rewrite String.eqb_refl in Fa. discriminate.
  - intros -> candidate. apply rename_loop_hidden. reflexivity.
Qed.

Lemma collision_names_settle_witness :
  exists n,
    free_fileName [("a.txt", {| content := "" |})] "a.txt" = Returns n
    /\ free_fileName [("a.txt", {| content := "" |})] n = Returns n
    /\ (n <> "hasOwnProperty" ->
        exists m,
          free_fileName [(n, {| content := "b" |});
                         ("a.txt", {| content := "" |})] "a.txt" = Returns m
          /\ m <> n /\ owns [("a.txt", {| content := "" |})] m = false)
    /\ (n = "hasOwnProperty" ->
        forall candidate,
          free_fileName [(n, {| content := "b" |});
                         ("a.txt", {| content := "" |})] candidate
          = Fails not_a_function).
Proof.
  exact (collision_names_settle [("a.txt", {| content := "" |})] "a.txt"
           {| content := "b" |} eq_refl).
Defined.

(** ** Commands on the current document *)

Lemma showError_run (this : Commands) (w : world) (e : thrown)
      (tr : trace) :
  calls (news w (_showError this e) tr)
  = [Called (ConsoleError e); Called (error_notice this e)]
  /\ snd (exec w (_showError this e) tr) = Returns tt.
Proof. destruct e; split; reflexivity. Qed.

(** The calls of a guarded body: its own, and the error report when it
    throws. *)
Lemma guarded_calls (this : Commands) (w : world) (p : prog unit)
      (tr : trace) :
  calls (news w (try_catch p (_showError this)) tr)
  = calls (news w p tr)
    ++ match snd (exec w p tr) with
       | Returns _ => []
       | Fails e => [Called (ConsoleError e); Called (error_notice this e)]
       end.
Proof.
  rewrite news_try_catch. unfold calls at 1. rewrite map_app. f_equal.
  destruct (snd (exec w p tr)) as [u | e]; [reflexivity |].
  apply showError_run.
Qed.

Lemma run_news {A} (w : world) (p : prog A) : fst (run w p) = news w p [].
Proof. unfold run. now rewrite exec_news. Qed.

(** How [_getCurrentDocument] ends, by what the active editor is. *)
Lemma current_document_run (this : Commands) (w : world)
      (focused : option vscode.TextEditor) (tr : trace) :
  w _ tr ActiveTextEditor = Returns focused ->
  exec w (_getCurrentDocument this) tr
  = (tr ++ [Entry ActiveTextEditor (Returns focused)],
     match focused with
     | None => Fails (ThrownError "No open documents")
     | Some e =>
         match _getCodeFileDetails (os this)
                 (vscode.fileName (vscode.document e)) with
         | None =>
             Fails (ThrownError ("Not a code block in " ++ provider_name this))
         | Some d => Returns d
         end
     end).
Proof.
  intros H. unfold _getCurrentDocument.
  rewrite exec_bind, exec_call, H. cbn beta iota.
  destruct focused as [e |]; [| reflexivity].
  now destruct (_getCodeFileDetails _ _).
Qed.

(** A command that starts from the current document, when there is none to
    start from: it reads the active editor, reports, and returns. *)
Lemma scoped_fails (this : Commands) (w : world)
      (F : CodeFileDetails -> prog unit)
      (focused : option vscode.TextEditor) (failure : thrown) :
  exec w (_getCurrentDocument this) []
  = ([Entry ActiveTextEditor (Returns focused)], Fails failure) ->
  calls (fst (run w (try_catch (bind (_getCurrentDocument this) F)
                               (_showError this))))
  = [Called ActiveTextEditor; Called (ConsoleError failure);
     Called (error_notice this failure)]
  /\ snd (run w (try_catch (bind (_getCurrentDocument this) F)
                           (_showError this))) = Returns tt.
Proof.
  intros E. split; [| apply guarded_returns].
  pose proof (exec_news w (_getCurrentDocument this) []) as N.
  rewrite E in N. cbn [fst app] in N.
  rewrite run_news, guarded_calls, news_bind, exec_bind, E, <- N.
  cbn [snd]. now rewrite app_nil_r.
Qed.

(** The commands that work on the current document
    ([openCodeBlockInBrowser], [deleteCodeBlock], [removeFileFromCodeBlock],
    [changeCodeBlockDescription]), with no editor focused or with one whose
    document is no working copy's: the only calls are the read of the
    active editor and the error report, which says [No open documents] or
    [Not a code block in] the provider; the provider is not called. *)
Theorem current_document_required (this : Commands) (w : world)
        (focused : option vscode.TextEditor) :
  w _ [] ActiveTextEditor = Returns focused ->
  match focused with
  | None => True
  | Some e =>
      _getCodeFileDetails (os this) (vscode.fileName (vscode.document e))
      = None
  end ->
  let failure :=
    match focused with
    | None => ThrownError "No open documents"
    | Some _ => ThrownError ("Not a code block in " ++ provider_name this)
    end in
  let report :=
    [Called ActiveTextEditor; Called (ConsoleError failure);
     Called (ShowErrorMessage
               ("GIST ERROR: " ++ match focused with
                                  | None => "No open documents"
                                  | Some _ =>
                                      "Not a code block in "
                                        ++ provider_name this
                                  end
                  ++ " [" ++ provider_name this ++ "]"))] in
  (calls (fst (run w (openCodeBlockInBrowser this))) = report
   /\ snd (run w (openCodeBlockInBrowser this)) = Returns tt)
  /\ (calls (fst (run w (deleteCodeBlock this))) = report
      /\ snd (run w (deleteCodeBlock this)) = Returns tt)
  /\ (calls (fst (run w (removeFileFromCodeBlock this))) = report
      /\ snd (run w (removeFileFromCodeBlock this)) = Returns tt)
  /\ (calls (fst (run w (changeCodeBlockDescription this))) = report
      /\ snd (run w (changeCodeBlockDescription this)) = Returns tt).
Proof.
  intros H Hd failure report.
  assert (E : exec w (_getCurrentDocument this) []
              = ([Entry ActiveTextEditor (Returns focused)], Fails failure)).
  { rewrite (current_document_run _ _ _ _ H). cbn [app]. f_equal.
    destruct focused as [e |]; [| reflexivity]. now rewrite Hd. }
  assert (R : report = [Called ActiveTextEditor; Called (ConsoleError failure);
                        Called (error_notice this failure)]).
  { unfold report, failure. now destruct focused. }
  rewrite R.
  repeat apply conj; try apply (scoped_fails this w _ focused failure E).
Qed.

Lemma current_document_required_witness :
  calls (fst (run (scripted idle) (deleteCodeBlock gist)))
  = [Called ActiveTextEditor;
     Called (ConsoleError (ThrownError "No open documents"));
     Called (ShowErrorMessage "GIST ERROR: No open documents [Gist]")]
  /\ calls (fst (run (scripted logged_out) (removeFileFromCodeBlock gist)))
     = [Called ActiveTextEditor;
        Called (ConsoleError (ThrownError "Not a code block in Gist"));
        Called (ShowErrorMessage "GIST ERROR: Not a code block in Gist [Gist]")].
Proof.
  split.
  - exact (proj1 (proj1 (proj2
      (current_document_required gist (scripted idle) None eq_refl I)))).
  - exact (proj1 (proj1 (proj2 (proj2
      (current_document_required gist (scripted logged_out) (Some scratch)
                                 eq_refl eq_refl))))).
Defined.

Lemma scoped_ok (this : Commands) (w : world)
      (F : CodeFileDetails -> prog unit)
      (editor : vscode.TextEditor) (d : CodeFileDetails) :
  w _ [] ActiveTextEditor = Returns (Some editor) ->
  _getCodeFileDetails (os this) (vscode.fileName (vscode.document editor))
  = Some d ->
  run w (try_catch (bind (_getCurrentDocument this) F) (_showError this))
  = exec w (try_catch (F d) (_showError this))
         [Entry ActiveTextEditor (Returns (Some editor))].
Proof.
  intros H Hd. unfold run.
  rewrite !exec_try_catch, exec_bind, (current_document_run _ _ _ _ H), Hd.
  reflexivity.
Qed.

(** [removeFileFromCodeBlock] on a working copy's document: the provider is
    asked to remove the decoded file from the decoded block; when that
    returns the active editor is closed and the user notified, and when it
    throws the error is reported and no editor is closed. *)
Theorem remove_file_outcomes (this : Commands) (w : world)
        (editor : vscode.TextEditor) (d : CodeFileDetails) :
  let e1 := Entry ActiveTextEditor (Returns (Some editor)) in
  let remove :=
    RemoveFileFromStorageBlock (storageBlockId d) (fileName d) in
  w _ [] ActiveTextEditor = Returns (Some editor) ->
  _getCodeFileDetails (os this) (vscode.fileName (vscode.document editor))
  = Some d ->
  calls (fst (run w (removeFileFromCodeBlock this)))
  = Called ActiveTextEditor :: Called remove
    :: match w _ [e1] remove with
       | Returns _ =>
           [Called (ExecuteCommand "workbench.action.closeActiveEditor");
            Called (_notify this "File Removed From Block")]
       | Fails e => [Called (ConsoleError e); Called (error_notice this e)]
       end
  /\ snd (run w (removeFileFromCodeBlock this)) = Returns tt.
Proof.
  intros e1 remove H Hd. unfold removeFileFromCodeBlock.
  rewrite (scoped_ok _ _ _ _ _ H Hd). fold e1 remove.
  rewrite exec_try_catch, exec_bind, exec_call.
  destruct (w unit [e1] remove) as [[] | e]; cbn beta iota.
  - rewrite exec_bind, !exec_fire. split; reflexivity.
  - destruct e; split; reflexivity.
Qed.

Lemma remove_file_outcomes_witness :
  calls (fst (run (refusing at_index) (removeFileFromCodeBlock gist)))
  = [Called ActiveTextEditor;
     Called (RemoveFileFromStorageBlock "abc123" "index.js");
     Called (ConsoleError (ThrownError "Forbidden"));
     Called (ShowErrorMessage "GIST ERROR: Forbidden [Gist]")]
  /\ snd (run (refusing at_index) (removeFileFromCodeBlock gist))
     = Returns tt.
Proof.
  exact (remove_file_outcomes gist (refusing at_index) editor_a
           {| storageBlockId := "abc123"; fileName := "index.js" |}
           eq_refl eq_refl).
Defined.

(** [deleteCodeBlock] when the provider refuses the deletion: the error is
    reported, the visible editors are not even read, and none is closed. *)
Theorem delete_refused (this : Commands) (w : world)
        (editor : vscode.TextEditor) (d : CodeFileDetails) (e : thrown) :
  let e1 := Entry ActiveTextEditor (Returns (Some editor)) in
  w _ [] ActiveTextEditor = Returns (Some editor) ->
  _getCodeFileDetails (os this) (vscode.fileName (vscode.document editor))
  = Some d ->
  w _ [e1] (DeleteStorageBlock (storageBlockId d)) = Fails e ->
  calls (fst (run w (deleteCodeBlock this)))
  = [Called ActiveTextEditor; Called (DeleteStorageBlock (storageBlockId d));
     Called (ConsoleError e); Called (error_notice this e)]
  /\ existsb closes_active (fst (run w (deleteCodeBlock this))) = false
  /\ snd (run w (deleteCodeBlock this)) = Returns tt.
Proof.
  intros e1 H Hd Hx. unfold deleteCodeBlock.
  rewrite (scoped_ok _ _ _ _ _ H Hd). fold e1.
  rewrite exec_try_catch, exec_bind, exec_call, Hx. cbn beta iota.
  destruct e; repeat split.
Qed.

Lemma delete_refused_witness :
  calls (fst (run (refusing side_by_side) (deleteCodeBlock gist)))
  = [Called ActiveTextEditor; Called (DeleteStorageBlock "abc123");
     Called (ConsoleError (ThrownError "Forbidden"));
     Called (ShowErrorMessage "GIST ERROR: Forbidden [Gist]")]
  /\ existsb closes_active
       (fst (run (refusing side_by_side) (deleteCodeBlock gist))) = false
  /\ snd (run (refusing side_by_side) (deleteCodeBlock gist)) = Returns tt.
Proof.
  exact (delete_refused gist (refusing side_by_side) editor_a
           {| storageBlockId := "abc123"; fileName := "index.js" |}
           (ThrownError "Forbidden") eq_refl eq_refl eq_refl).
Defined.

Lemma delete_sweep_calls_witness :
  calls (fst (run (scripted side_by_side) (deleteCodeBlock gist)))
  = [Called ActiveTextEditor; Called (DeleteStorageBlock "abc123");
     Called VisibleTextEditors;
     Called (ExecuteCommand "workbench.action.closeActiveEditor");
     Called (ExecuteCommand "workbench.action.closeActiveEditor");
     Called (ShowInformationMessage "GIST MESSAGE: Block Deleted [Gist]")].
Proof.
  exact (delete_sweep_calls gist (scripted side_by_side) editor_a
           {| storageBlockId := "abc123"; fileName := "index.js" |}
           [editor_a; editor_c; editor_b] eq_refl eq_refl eq_refl eq_refl).
Defined.

(** [openCodeBlockInBrowser] on a working copy's document: the block is
    fetched by the decoded id and [open] called on its page; when the fetch
    throws, the error is reported and nothing is opened; when [open] throws,
    its error is reported.  The handler returns. *)
Theorem browser_outcomes (this : Commands) (w : world)
        (editor : vscode.TextEditor) (d : CodeFileDetails) :
  let e1 := Entry ActiveTextEditor (Returns (Some editor)) in
  let fetch := GetStorageBlockById (storageBlockId d) in
  w _ [] ActiveTextEditor = Returns (Some editor) ->
  _getCodeFileDetails (os this) (vscode.fileName (vscode.document editor))
  = Some d ->
  calls (fst (run w (openCodeBlockInBrowser this)))
  = Called ActiveTextEditor :: Called fetch
    :: match w _ [e1] fetch with
       | Returns b =>
           let browse := OpenUrl (html_url b) in
           Called browse
           :: match w _ [e1; Entry fetch (Returns b)] browse with
              | Returns _ => []
              | Fails e =>
                  [Called (ConsoleError e); Called (error_notice this e)]
              end
       | Fails e => [Called (ConsoleError e); Called (error_notice this e)]
       end
  /\ snd (run w (openCodeBlockInBrowser this)) = Returns tt.
Proof.
  intros e1 fetch H Hd. unfold openCodeBlockInBrowser.
  rewrite (scoped_ok _ _ _ _ _ H Hd). fold e1 fetch.
  rewrite exec_try_catch, exec_bind, exec_call.
  destruct (w StorageBlock [e1] fetch) as [b | e]; cbn beta iota.
  - rewrite exec_call. cbn [app].
    destruct (w unit _ _) as [[] | e]; [split; reflexivity |].
    destruct e; split; reflexivity.
  - destruct e; split; reflexivity.
Qed.

Lemma browser_outcomes_witness :
  (calls (fst (run (scripted at_index) (openCodeBlockInBrowser gist)))
   = [Called ActiveTextEditor; Called (GetStorageBlockById "abc123");
      Called (OpenUrl "https://gist/abc123")]
   /\ snd (run (scripted at_index) (openCodeBlockInBrowser gist))
      = Returns tt)
  /\ (calls (fst (run (no_browser at_index) (openCodeBlockInBrowser gist)))
      = [Called ActiveTextEditor; Called (GetStorageBlockById "abc123");
         Called (OpenUrl "https://gist/abc123");
         Called (ConsoleError (ThrownError "no browser"));
         Called (ShowErrorMessage "GIST ERROR: no browser [Gist]")]
      /\ snd (run (no_browser at_index) (openCodeBlockInBrowser gist))
         = Returns tt).
Proof.
  split.
  - exact (browser_outcomes gist (scripted at_index) editor_a
             {| storageBlockId := "abc123"; fileName := "index.js" |}
             eq_refl eq_refl).
  - exact (browser_outcomes gist (no_browser at_index) editor_a
             {| storageBlockId := "abc123"; fileName := "index.js" |}
             eq_refl eq_refl).
Defined.

(** ** Saving a working copy's document *)

(** [onSaveTextDocument] on a document that decodes to a block id that is
    not empty: the first call is the provider's [editFile] with the decoded
    id, the decoded file name and the document's whole text; when it
    returns the user is notified, and when it (or the notification) throws
    the error is reported; the handler returns. *)
Theorem save_propagates (this : Commands) (w : world)
        (doc : vscode.TextDocument) (d : CodeFileDetails) :
  let save := EditFile (storageBlockId d) (fileName d) (vscode.text doc) in
  let notice := _notify this "File Saved To Block" in
  _getCodeFileDetails (os this) (vscode.fileName doc) = Some d ->
  Str.is_empty (storageBlockId d) = false ->
  calls (fst (run w (onSaveTextDocument this doc)))
  = Called save
    :: match w _ [] save with
       | Returns r =>
           Called notice
           :: match w _ [Entry save (Returns r)] notice with
              | Returns _ => []
              | Fails e =>
                  [Called (ConsoleError e); Called (error_notice this e)]
              end
       | Fails e => [Called (ConsoleError e); Called (error_notice this e)]
       end
  /\ snd (run w (onSaveTextDocument this doc)) = Returns tt.
Proof.
  intros save notice Hd Hid. unfold run, onSaveTextDocument.
  rewrite Hd, Hid. fold save notice.
  rewrite exec_try_catch, exec_bind, exec_call.
  destruct (w unit [] save) as [r | e]; cbn beta iota.
  - rewrite exec_call. cbn [app].
    destruct (w unit [Entry save (Returns r)] notice) as [[] | e];
      cbn beta iota; [split; reflexivity |].
    destruct e; split; reflexivity.
  - destruct e; split; reflexivity.
Qed.

Lemma save_propagates_witness :
  calls (fst (run (scripted idle)
                  (onSaveTextDocument gist
                     {| vscode.fileName := "/tmp/vscode_gist_abc123_1/x.txt";
                        vscode.text := "hello" |})))
  = [Called (EditFile "abc123" "x.txt" "hello");
     Called (ShowInformationMessage
               "GIST MESSAGE: File Saved To Block [Gist]")]
  /\ snd (run (scripted idle)
              (onSaveTextDocument gist
                 {| vscode.fileName := "/tmp/vscode_gist_abc123_1/x.txt";
                    vscode.text := "hello" |})) = Returns tt.
Proof.
  exact (save_propagates gist (scripted idle)
           {| vscode.fileName := "/tmp/vscode_gist_abc123_1/x.txt";
              vscode.text := "hello" |}
           {| storageBlockId := "abc123"; fileName := "x.txt" |}
           eq_refl eq_refl).
Defined.

(** ** Logging in, picking a block *)

(** [_loginUser], case by case.  An authenticated provider is asked nothing
    more.  Otherwise the user name is asked for, then the password; a
    dismissed prompt ends the login with a [TypeError] before anything else
    is asked or sent; with both answered, [login] gets the two answers
    trimmed, and the login ends as that call does. *)
Theorem login_prompts (this : Commands) (w : world) :
  let check := Entry IsAuthenticated (Returns false) in
  let askU :=
    ShowInputBox ("Enter your " ++ provider_name this ++ " username") None in
  let askP :=
    ShowInputBox ("Enter your " ++ provider_name this ++ " password.") None in
  match w _ [] IsAuthenticated with
  | Returns true =>
      run w (_loginUser this)
      = ([Entry IsAuthenticated (Returns true)], Returns tt)
  | Returns false =>
      match w _ [check] askU with
      | Returns (Some u) =>
          let e1 := Entry askU (Returns (Some u)) in
          match w _ [check; e1] askP with
          | Returns (Some p) =>
              let e2 := Entry askP (Returns (Some p)) in
              let login := Login (Str.trim u) (Str.trim p) in
              run w (_loginUser this)
              = ([check; e1; e2; Entry login (w _ [check; e1; e2] login)],
                 w _ [check; e1; e2] login)
          | Returns None =>
              run w (_loginUser this)
              = ([check; e1; Entry askP (Returns None)], Fails type_error)
          | Fails e =>
              run w (_loginUser this)
              = ([check; e1; Entry askP (Fails e)], Fails e)
          end
      | Returns None =>
          run w (_loginUser this)
          = ([check; Entry askU (Returns None)], Fails type_error)
      | Fails e =>
          run w (_loginUser this)
          = ([check; Entry askU (Fails e)], Fails e)
      end
  | Fails e =>
      run w (_loginUser this) = ([Entry IsAuthenticated (Fails e)], Fails e)
  end.
Proof.
  cbv zeta. unfold run, _loginUser, trimmed.
  cbn [bind call exec app].
  destruct (w bool [] IsAuthenticated) as [[|] | e]; cbn [bind exec app];
    try reflexivity.
  destruct (w (option string) _ _) as [[u |] | e]; cbn [bind exec app];
    try reflexivity.
  destruct (w (option string) _ _) as [[p |] | e]; cbn [bind exec app];
    try reflexivity.
  now rewrite exec_call.
Qed.

(** [openCodeBlock] when no block comes out of the selection (the quick
    pick is dismissed): the command ends there, with no directory made, no
    file written and no error shown. *)
Theorem open_nothing_picked (this : Commands) (w : world) (favorite : bool)
        (tr1 : trace) :
  exec w (_selectCodeBlock this favorite) [] = (tr1, Returns None) ->
  run w (openCodeBlock this favorite) = (tr1, Returns tt).
Proof.
  intros H. unfold run, openCodeBlock.
  now rewrite exec_try_catch, exec_bind, H.
Qed.

Lemma open_nothing_picked_witness :
  run (scripted empty_handed) (openCodeBlock gist false)
  = ([Entry IsAuthenticated (Returns true);
      Entry (ListBlocks false) (Returns []);
      Entry (ShowQuickPick []) (Returns None)],
     Returns tt).
Proof.
  exact (open_nothing_picked gist (scripted empty_handed) false _ eq_refl).
Defined.

(** [addToCodeBlock] with no editor focused reports [Open a file before
    adding] without a call to the provider, not even the login check; with
    an editor focused and no block picked it ends after the selection, with
    nothing stored and no error shown. *)
Theorem add_needs_editor_and_block (this : Commands) (w : world)
        (focused : option vscode.TextEditor) :
  w _ [] ActiveTextEditor = Returns focused ->
  match focused with
  | None =>
      let failure := ThrownError "Open a file before adding" in
      calls (fst (run w (addToCodeBlock this)))
      = [Called ActiveTextEditor; Called (ConsoleError failure);
         Called (ShowErrorMessage
                   ("GIST ERROR: Open a file before adding ["
                      ++ provider_name this ++ "]"))]
      /\ snd (run w (addToCodeBlock this)) = Returns tt
  | Some editor =>
      forall tr1,
        exec w (_selectCodeBlock this false)
             [Entry ActiveTextEditor (Returns (Some editor))]
        = (tr1, Returns None) ->
        run w (addToCodeBlock this) = (tr1, Returns tt)
  end.
Proof.
  intros H. unfold run, addToCodeBlock.
  rewrite exec_try_catch, exec_bind, exec_call, H. cbn [app].
  destruct focused as [editor |].
  - intros tr1 E. now rewrite exec_bind, E.
  - split; reflexivity.
Qed.

Lemma add_needs_editor_and_block_witness :
  (calls (fst (run (scripted idle) (addToCodeBlock gist)))
   = [Called ActiveTextEditor;
      Called (ConsoleError (ThrownError "Open a file before adding"));
      Called (ShowErrorMessage "GIST ERROR: Open a file before adding [Gist]")]
   /\ snd (run (scripted idle) (addToCodeBlock gist)) = Returns tt)
  /\ run (scripted empty_handed) (addToCodeBlock gist)
     = ([Entry ActiveTextEditor (Returns (Some scratch));
         Entry IsAuthenticated (Returns true);
         Entry (ListBlocks false) (Returns []);
         Entry (ShowQuickPick []) (Returns None)],
        Returns tt).
Proof.
  split.
  - exact (add_needs_editor_and_block gist (scripted idle) None eq_refl).
  - exact (add_needs_editor_and_block gist (scripted empty_handed)
             (Some scratch) eq_refl _ eq_refl).
Defined.

(** ** Creating a block, to the end *)

(** [createCodeBlock] with an editor focused, after the two prompts.  A
    dismissed description goes on as no description; a dismissed privacy
    prompt ends the command with a [TypeError] reported and no call to the
    provider.  With the privacy prompt answered the block is created,
    private when the answer starts with [y] or [Y]; when the provider
    returns it, [open] is called on its page, and an error of [open]
    reported; when the provider throws, its error is reported and nothing
    opened.  The handler returns. *)
Theorem create_outcomes (this : Commands) (w : world)
        (editor : vscode.TextEditor) (descr answer : option string) :
  let e1 := Entry ActiveTextEditor (Returns (Some editor)) in
  let ask1 := ShowInputBox "Enter description" None in
  let ask2 := ShowInputBox "Private? Y = Yes, N = No" None in
  let e2 := Entry ask1 (Returns descr) in
  let e3 := Entry ask2 (Returns answer) in
  w _ [] ActiveTextEditor = Returns (Some editor) ->
  w _ [e1] ask1 = Returns descr ->
  w _ [e1; e2] ask2 = Returns answer ->
  calls (fst (run w (createCodeBlock this)))
  = Called ActiveTextEditor :: Called ask1 :: Called ask2
    :: match answer with
       | None =>
           [Called (ConsoleError type_error);
            Called (error_notice this type_error)]
       | Some a =>
           let create :=
             CreateFile (editor_fileName this editor) descr
                        (editor_text editor) (Str.starts_with_y a) in
           Called create
           :: match w _ [e1; e2; e3] create with
              | Returns b =>
                  let browse := OpenUrl (html_url b) in
                  Called browse
                  :: match w _ [e1; e2; e3; Entry create (Returns b)]
                             browse with
                     | Returns _ => []
                     | Fails e =>
                         [Called (ConsoleError e);
                          Called (error_notice this e)]
                     end
              | Fails e =>
                  [Called (ConsoleError e); Called (error_notice this e)]
              end
       end
  /\ snd (run w (createCodeBlock this)) = Returns tt.
Proof.
  intros e1 ask1 ask2 e2 e3 H1 H2 H3. unfold run, createCodeBlock, _prompt.
  rewrite exec_try_catch, exec_bind, exec_call, H1. cbn [app].
  rewrite exec_bind, exec_call. fold e1 ask1. rewrite H2. cbn [app].
  rewrite exec_bind, exec_call. fold e2 ask2. rewrite H3. cbn [app].
  fold e3. destruct answer as [a |]; [| split; reflexivity].
  rewrite exec_bind, exec_call.
  destruct (w StorageBlock _ _) as [b | e]; cbn beta iota.
  - rewrite exec_call. cbn [app].
    destruct (w unit _ _) as [[] | e]; [split; reflexivity |].
    destruct e; split; reflexivity.
  - destruct e; split; reflexivity.
Qed.

Lemma create_outcomes_witness :
  (calls (fst (run (scripted writing) (createCodeBlock gist)))
   = [Called ActiveTextEditor;
      Called (ShowInputBox "Enter description" None);
      Called (ShowInputBox "Private? Y = Yes, N = No" None);
      Called (CreateFile "notes.txt" (Some "yes") "hello" true);
      Called (OpenUrl "https://gist/new")]
   /\ snd (run (scripted writing) (createCodeBlock gist)) = Returns tt)
  /\ (calls (fst (run (no_browser writing) (createCodeBlock gist)))
      = [Called ActiveTextEditor;
         Called (ShowInputBox "Enter description" None);
         Called (ShowInputBox "Private? Y = Yes, N = No" None);
         Called (CreateFile "notes.txt" (Some "yes") "hello" true);
         Called (OpenUrl "https://gist/new");
         Called (ConsoleError (ThrownError "no browser"));
         Called (ShowErrorMessage "GIST ERROR: no browser [Gist]")]
      /\ snd (run (no_browser writing) (createCodeBlock gist)) = Returns tt)
  /\ (calls (fst (run (refusing writing) (createCodeBlock gist)))
      = [Called ActiveTextEditor;
         Called (ShowInputBox "Enter description" None);
         Called (ShowInputBox "Private? Y = Yes, N = No" None);
         Called (CreateFile "notes.txt" (Some "yes") "hello" true);
         Called (ConsoleError (ThrownError "Forbidden"));
         Called (ShowErrorMessage "GIST ERROR: Forbidden [Gist]")]
      /\ snd (run (refusing writing) (createCodeBlock gist)) = Returns tt).
Proof.
  split; [| split].
  - exact (create_outcomes gist (scripted writing) scratch_selected
             (Some "yes") (Some "yes") eq_refl eq_refl eq_refl).
  - exact (create_outcomes gist (no_browser writing) scratch_selected
             (Some "yes") (Some "yes") eq_refl eq_refl eq_refl).
  - exact (create_outcomes gist (refusing writing) scratch_selected
             (Some "yes") (Some "yes") eq_refl eq_refl eq_refl).
Defined.

(** ** What the commands never do *)

Lemma open_each_never (bad : entry -> bool) (this : Commands)
      (directory : string) (fs : list (string * FileContent)) :
  (forall c r, bad (Entry (ExecuteCommand c) r) = false) ->
  (forall f d r, bad (Entry (WriteFileSync f d) r) = false) ->
  (forall f r, bad (Entry (OpenTextDocument f) r) = false) ->
  (forall d r, bad (Entry (ShowTextDocument d) r) = false) ->
  forall i, never bad (open_each this directory i fs).
Proof.
  intros Hc Hw Ho Hs.
  induction fs as [|[name file] fs IH]; intros i; [exact I |].
  cbn [open_each]. unfold _openTextDocument.
  apply never_bind; [| intros _; apply never_bind; [| intros _; apply IH]].
  - destruct i; cbn; [exact I |].
    intros r1. split; [apply Hc |]. destruct r1; cbn; [| exact I].
    intros r2. split; [apply Hc |]. now destruct r2.
  - cbn. intros r1. split; [apply Hw |]. destruct r1; cbn; [| exact I].
    intros r2. split; [apply Ho |]. destruct r2; cbn; [| exact I].
    intros r3. split; [apply Hs |]. now destruct r3.
Qed.

Lemma close_each_never (bad : entry -> bool) (this : Commands)
      (blockId : string) (editors : list vscode.TextEditor) :
  (forall c r, bad (Entry (ExecuteCommand c) r) = false) ->
  never bad (close_each this blockId editors).
Proof.
  intros Hc. induction editors as [|e editors IH]; [exact I |].
  cbn [close_each]. apply never_bind; [| intros _; exact IH].
  destruct (_getCodeFileDetails _ _) as [d |]; [| exact I].
  destruct (String.eqb _ _); [| exact I].
  cbn. intros r. split; [apply Hc | exact I].
Qed.

Ltac harmless :=
  repeat (cbn; intros;
          match goal with
          | |- _ /\ _ => split
          | |- never _ (open_each _ _ _ _) =>
              apply open_each_never; intros; reflexivity
          | |- never _ (close_each _ _ _) =>
              apply close_each_never; intros; reflexivity
          | |- never _ (trimmed ?a) => destruct a
          | |- never _ (match ?x with _ => _ end) => destruct x
          | |- never _ (bind _ _) => apply never_bind
          | |- never _ (try_catch _ _) => apply never_try_catch
          | |- _ = _ => reflexivity
          | |- True => exact I
          end).

(** Which command changes what at the provider, in any run: opening a
    block, in the editor or in the browser, changes nothing; creating only
    creates; adding and saving only edit files; removing a file, deleting a
    block and describing it each make no other change than their own. *)
Theorem provider_changes (this : Commands) (w : world) (favorite : bool)
        (doc : vscode.TextDocument) :
  existsb (strays None) (fst (run w (openCodeBlock this favorite))) = false
  /\ existsb (strays None) (fst (run w (openCodeBlockInBrowser this)))
     = false
  /\ existsb (strays (Some Creates)) (fst (run w (createCodeBlock this)))
     = false
  /\ existsb (strays (Some Edits)) (fst (run w (addToCodeBlock this)))
     = false
  /\ existsb (strays (Some Edits))
             (fst (run w (onSaveTextDocument this doc))) = false
  /\ existsb (strays (Some Removes))
             (fst (run w (removeFileFromCodeBlock this))) = false
  /\ existsb (strays (Some Deletes)) (fst (run w (deleteCodeBlock this)))
     = false
  /\ existsb (strays (Some Describes))
             (fst (run w (changeCodeBlockDescription this))) = false.
Proof.
  rewrite !run_news.
  repeat apply conj; apply never_news.
  - unfold openCodeBlock, open_selected. harmless.
  - unfold openCodeBlockInBrowser. harmless.
  - unfold createCodeBlock. harmless.
  - unfold addToCodeBlock. harmless.
  - unfold onSaveTextDocument. harmless.
  - unfold removeFileFromCodeBlock. harmless.
  - unfold deleteCodeBlock. harmless.
  - unfold changeCodeBlockDescription. harmless.
Qed.

Lemma guarded_reports_once (this : Commands) (w : world) (p : prog unit)
      (tr : trace) :
  never shows_error p ->
  reports_once this (news w (try_catch p (_showError this)) tr).
Proof.
  intros Hp. rewrite news_try_catch.
  destruct (snd (exec w p tr)) as [u | e].
  - left. rewrite app_nil_r. now apply never_news.
  - right. exists (news w p tr), e. do 2 eexists.
    split; [| now apply never_news].
    f_equal. destruct e; reflexivity.
Qed.

(** In any run a command shows at most one error notification, and when it
    shows one, the log entry and the notification are its last two calls:
    nothing is attempted after an error. *)
Theorem one_report_at_the_end (this : Commands) (w : world)
        (favorite : bool) (doc : vscode.TextDocument) :
  reports_once this (fst (run w (openCodeBlock this favorite)))
  /\ reports_once this (fst (run w (createCodeBlock this)))
  /\ reports_once this (fst (run w (openCodeBlockInBrowser this)))
  /\ reports_once this (fst (run w (deleteCodeBlock this)))
  /\ reports_once this (fst (run w (removeFileFromCodeBlock this)))
  /\ reports_once this (fst (run w (addToCodeBlock this)))
  /\ reports_once this (fst (run w (changeCodeBlockDescription this)))
  /\ reports_once this (fst (run w (onSaveTextDocument this doc))).
Proof.
  rewrite !run_news.
  repeat apply conj; try (apply guarded_reports_once).
  - unfold open_selected. harmless.
  - harmless.
  - harmless.
  - harmless.
  - harmless.
  - harmless.
  - harmless.
  - unfold onSaveTextDocument.
    destruct (_getCodeFileDetails _ _) as [d |]; [| now left].
    apply guarded_reports_once. harmless.
Qed.

(** ** Files are written before they are opened *)

Lemma written_first_app (last : option string) (t1 t2 : trace) :
  written_first last (t1 ++ t2)
  = written_first last t1
    && written_first (fold_left (fun _ e => wrote e) t1 last) t2.
Proof.
  revert last; induction t1 as [|e t1 IH]; intros last; cbn.
  - reflexivity.
  - now rewrite IH, andb_assoc.
Qed.

Lemma written_app (t1 t2 : trace) :
  written_before_opened t1 -> written_before_opened t2 ->
  written_before_opened (t1 ++ t2).
Proof.
  intros H1 H2 last. now rewrite written_first_app, H1, H2.
Qed.

Lemma written_quiet (tr : trace) :
  existsb asks_to_open tr = false -> written_before_opened tr.
Proof.
  induction tr as [|e tr IH]; intros H last; [reflexivity |].
  cbn in H |- *. apply orb_false_iff in H as [He Ht].
  unfold asks_to_open in He. destruct (opens e); [discriminate |].
  now apply IH.
Qed.

Lemma written_bind {A B} (w : world) (p : prog A) (f : A -> prog B) :
  (forall tr, written_before_opened (news w p tr)) ->
  (forall a tr, written_before_opened (news w (f a) tr)) ->
  forall tr, written_before_opened (news w (bind p f) tr).
Proof.
  intros Hp Hf tr. rewrite news_bind. apply written_app; [apply Hp |].
  destruct (snd (exec w p tr)); [apply Hf | now intros last].
Qed.

Lemma written_never {A} (w : world) (p : prog A) :
  never asks_to_open p -> forall tr, written_before_opened (news w p tr).
Proof. intros H tr. now apply written_quiet, never_news. Qed.

Lemma open_each_written (this : Commands) (w : world) (directory : string)
      (fs : list (string * FileContent)) :
  forall i tr,
    written_before_opened (news w (open_each this directory i fs) tr).
Proof.
  induction fs as [|[name file] fs IH]; intros i tr; [now intros last |].
  cbn [open_each]. apply written_bind.
  - apply written_never. destruct i; harmless.
  - intros _ tr'. unfold _openTextDocument.
    cbn [bind call news].
    destruct (w unit tr' _) as [[] | e]; [| now intros last].
    cbn [bind call news].
    destruct (w vscode.TextDocument _ _) as [doc | e]; cbn [bind call news].
    + destruct (w unit _ _) as [[] | e]; cbn [bind call news];
        intros last; cbn; rewrite String.eqb_refl; [apply IH | reflexivity].
    + intros last. cbn. now rewrite String.eqb_refl.
Qed.

(** Whatever the world does, [openCodeBlock] asks the host to open a
    document only right after [writeFileSync] has returned for that very
    path. *)
Theorem open_writes_first (this : Commands) (w : world) (favorite : bool) :
  written_first None (fst (run w (openCodeBlock this favorite))) = true
  /\ opened (fst (run (scripted idle) (openCodeBlock gist favorite)))
     = ["/tmp/vscode_gist_abc123_4711xYz/index.js";
        "/tmp/vscode_gist_abc123_4711xYz/style.css"].
Proof.
  split; [| reflexivity].
  rewrite run_news. unfold openCodeBlock.
  rewrite news_try_catch. apply written_app.
  - apply written_bind.
    + apply written_never. harmless.
    + intros [b |] tr; [| now intros last].
      unfold open_selected, _createTmpDir.
      apply written_bind; [apply written_never; harmless |]. intros d tr1.
      apply written_bind; [apply written_never; harmless |]. intros ed tr2.
      apply written_bind; [apply written_never; destruct ed; harmless |].
      intros _ tr3. apply open_each_written.
  - destruct (snd (exec w _ [])) as [u | e]; [now intros last |].
    apply written_never. harmless.
Qed.

(** ** Choosing the provider *)

Lemma service_single {P} (key : string) (p : P)
      (up : string -> option P) :
  service {| registered := [(key, p)]; inherited := up |} key = Some p.
Proof. unfold service, registered_as. cbn. now rewrite String.eqb_refl. Qed.

(** [_init] with a store that takes the update.  Running it again changes
    nothing more.  When the store refuses the update, nothing is changed at
    all.  And a provider that is in step with the store stays so: when
    [_provider] is set, it is what the services object holds under the
    stored key, be it a registered service or an inherited property. *)
Theorem init_settles {P} (services : Services P) (st : Chosen P)
        (e : thrown) :
  snd (_init services (Returns tt) (snd (_init services (Returns tt) st)))
  = snd (_init services (Returns tt) st)
  /\ _init services (Fails e) st
     = (match providerKey st, registered services with
        | Some (String _ _), _ | _, [_] => Fails e
        | _, _ => Returns tt
        end, st)
  /\ (in_step services st ->
      forall update, in_step services (snd (_init services update st))).
Proof.
  destruct services as [own up].
  split; [| split].
  - unfold _init, _setProvider. cbn [registered].
    destruct (providerKey st) as [[| c k] |] eqn:K; cbn [snd providerKey].
    + destruct own as [|[key p] [|kv own]]; cbn [snd providerKey];
        rewrite ?K; try reflexivity.
      destruct key; reflexivity.
    + reflexivity.
    + destruct own as [|[key p] [|kv own]]; cbn [snd providerKey];
        rewrite ?K; try reflexivity.
      destruct key; reflexivity.
  - unfold _init, _setProvider. cbn [registered].
    destruct (providerKey st) as [[| c k] |];
      destruct own as [|[key p] [|kv own]]; reflexivity.
  - intros Hstep update. unfold _init, _setProvider. cbn [registered].
    set (services := {| registered := own; inherited := up |}) in *.
    assert (Hset : forall key,
               in_step services
                 {| providerKey := Some key;
                    _provider := service services key |}).
    { intros key. unfold in_step. cbn [_provider providerKey].
      destruct (service services key) as [p |] eqn:S; [| exact I].
      now exists key. }
    destruct update as [[] | x];
      destruct (providerKey st) as [[| c k] |];
      destruct own as [|[key p] [|kv own]]; cbn [snd];
      try exact Hstep; apply Hset.
Qed.

(** A stored key that names no registered service is taken all the same,
    also when there is exactly one service to fall back on: [_provider]
    becomes what the services object inherits under that key, which is
    nothing for most keys and no service for the others. *)
Theorem init_stale_key {P} (services : Services P) (st : Chosen P)
        (c : ascii) (k : string) :
  providerKey st = Some (String c k) ->
  registered_as services (String c k) = None ->
  _init services (Returns tt) st
  = (Returns tt,
     {| providerKey := Some (String c k);
        _provider := inherited services (String c k) |}).
Proof.
  intros K S. unfold _init, _setProvider, service. now rewrite K, S.
Qed.

Lemma init_stale_key_witness :
  _init only_gist (Returns tt)
        {| providerKey := Some "github"; _provider := None |}
  = (Returns tt, {| providerKey := Some "github"; _provider := None |})
  /\ _init only_gist (Returns tt)
           {| providerKey := Some "constructor"; _provider := None |}
     = (Returns tt, {| providerKey := Some "constructor";
                       _provider := Some "function Object" |}).
Proof.
  split.
  - exact (init_stale_key only_gist
             {| providerKey := Some "github"; _provider := None |}
             "g" "ithub" eq_refl eq_refl).
  - exact (init_stale_key only_gist
             {| providerKey := Some "constructor"; _provider := None |}
             "c" "onstructor" eq_refl eq_refl).
Defined.

(** With nothing stored, [_init] takes the only registered service and
    stores its key; with no service, or more than one, it chooses
    nothing. *)
Theorem init_default {P} (services : Services P) (p0 : option P) :
  let st := {| providerKey := None; _provider := p0 |} in
  _init services (Returns tt) st
  = match registered services with
    | [(key, p)] =>
        (Returns tt, {| providerKey := Some key; _provider := Some p |})
    | _ => (Returns tt, st)
    end.
Proof.
  cbv zeta. destruct services as [own up].
  unfold _init, _setProvider. cbn [providerKey registered].
  destruct own as [|[key p] [|kv own]]; try reflexivity.
  now rewrite service_single.
Qed.
